(** * The chat inline anchor widget

    A shallow embedding of
    [src/vs/workbench/contrib/chat/browser/chatInlineAnchorWidget.ts]:
    the classification of an inline reference, the display data the
    constructor derives from it, the scoped context keys and listeners it
    installs, the events a widget reacts to during its lifetime, and the
    keybinding actions that read the last focused anchor. *)

From Stdlib Require Import Ascii String ZArith.
From stdpp Require Import base option strings list gmap pretty.

Open Scope string_scope.
Open Scope list_scope.

(** ** Platform values *)

(** [URI] of [base/common/uri]: the five components of a resource
    identifier. *)
Record URI := mkURI {
  scheme : string;
  authority : string;
  path : string;
  query : string;
  fragment : string
}.

#[global] Instance URI_eq_dec : EqDecision URI.
Proof. solve_decision. Defined.

(** Modelled from the spec: [uri.with({ fragment })] of the URI class, "URI
    with a fragment set to ..., empty fragment otherwise": the same
    identifier with its fragment replaced. *)
Definition URI_with_fragment (u : URI) (f : string) : URI :=
  {| scheme := scheme u; authority := authority u; path := path u;
     query := query u; fragment := f |}.

(** [IRange] of [editor/common/core/range]. Line numbers and columns are
    integral JavaScript numbers. *)
Record IRange := mkRange {
  startLineNumber : Z;
  startColumn : Z;
  endLineNumber : Z;
  endColumn : Z
}.

(** The shape [{ readonly uri: URI; readonly range?: IRange }] that the
    constructor gives its local [location]; a [Location] payload and the
    location of a workspace symbol are read through it. *)
Record Location := mkLocation {
  uri : URI;
  range : option IRange
}.

(** [SymbolKind] is a numeric enumeration. *)
Definition SymbolKind := N.

(** [IWorkspaceSymbol] of [contrib/search/common/search]. *)
Record IWorkspaceSymbol := mkSymbol {
  name : string;
  containerName : option string;
  kind : SymbolKind;
  tags : option (list N);
  location : Location
}.

(** [IChatContentInlineReference.inlineReference], of type
    [URI | Location | IWorkspaceSymbol]. *)
Inductive InlineReference :=
| RefURI (u : URI)
| RefLocation (l : Location)
| RefSymbol (s : IWorkspaceSymbol).

(** The members an object of each shape answers to under JavaScript's
    [in] operator. *)
Definition properties (r : InlineReference) : list string :=
  match r with
  | RefURI _ =>
      ["scheme"; "authority"; "path"; "query"; "fragment";
       "fsPath"; "with"; "toString"; "toJSON"]
  | RefLocation l =>
      "uri" :: (match range l with Some _ => ["range"] | None => [] end)
  | RefSymbol s =>
      "name" :: (match containerName s with Some _ => ["containerName"] | None => [] end)
        ++ "kind" :: (match tags s with Some _ => ["tags"] | None => [] end)
        ++ ["location"]
  end.

(** [k in r]. *)
Definition has_property (k : string) (r : InlineReference) : bool :=
  bool_decide (k ∈ properties r).

(** ** Classification *)

(** [ContentRefData]: the tagged union stored in [this.data]. *)
Inductive ContentRefData :=
| SymbolData (symbol : IWorkspaceSymbol)
| ResourceData (resource : URI) (sub : option IRange).

(** Lines 82-86 of the constructor. A payload with a [uri] member is kept
    as it is, one with a [name] member is wrapped as a symbol, and anything
    else is taken to be the URI itself. *)
Definition contentRefData (r : InlineReference) : ContentRefData :=
  match r with
  | RefLocation l => ResourceData (uri l) (range l)
  | RefSymbol s => SymbolData s
  | RefURI u => ResourceData u None
  end.

(** [data.kind === 'symbol'] *)
Definition isSymbol (d : ContentRefData) : bool :=
  match d with SymbolData _ => true | ResourceData _ _ => false end.

(** ** Context keys *)

(** Values a context key can hold in this widget. *)
Inductive ContextKeyValue :=
| CBool (b : bool)
| CString (s : string).

(** [RawContextKey]: a key name and the default installed at binding
    time ([None] for [undefined]). *)
Record RawContextKey := mkRawContextKey {
  key : string;
  defaultValue : option ContextKeyValue
}.

(** Line 48. *)
Definition chatResourceContextKey : RawContextKey :=
  {| key := "chatAnchorResource"; defaultValue := None |}.

(** Modelled from the spec: [rawKey.bindTo(service)] of the context key
    platform. A key bound in a scope starts at its declared ("synchronous")
    default, and is absent from the scope when it declares none. *)
Definition bindTo (k : RawContextKey) (ctx : gmap string ContextKeyValue)
  : gmap string ContextKeyValue :=
  match defaultValue k with
  | Some v => <[key k := v]> ctx
  | None => delete (key k) ctx
  end.

(** Modelled from the spec: [boundKey.set(v)] stores the value under the
    key in the scope it was bound to. *)
Definition setContext (k : RawContextKey) (v : ContextKeyValue)
  (ctx : gmap string ContextKeyValue) : gmap string ContextKeyValue :=
  <[key k := v]> ctx.

(** JavaScript truthiness of a stored value. *)
Definition truthy (v : ContextKeyValue) : bool :=
  match v with
  | CBool b => b
  | CString s => negb (String.eqb s "")
  end.

(** Modelled from the spec: the scope created by [createScoped] is "a
    nested key-value scope that shadows ambient context"; a key it does not
    hold is read from the ambient context. *)
Definition getContextKeyValue (ambient scoped : gmap string ContextKeyValue)
  (k : string) : option ContextKeyValue :=
  match scoped !! k with
  | Some v => Some v
  | None => ambient !! k
  end.

(** Modelled from the spec: a raw key used as a [precondition] or [when]
    clause is an applicability predicate over the scoped context; it holds
    when the value read for the key is truthy, and [negate()] inverts it. *)
Inductive ContextKeyExpression :=
| Defined (k : RawContextKey)
| Negate (k : RawContextKey).

Definition contextMatchesRules (ambient scoped : gmap string ContextKeyValue)
  (e : ContextKeyExpression) : bool :=
  match e with
  | Defined k =>
      match getContextKeyValue ambient scoped (key k) with
      | Some v => truthy v
      | None => false
      end
  | Negate k =>
      match getContextKeyValue ambient scoped (key k) with
      | Some v => negb (truthy v)
      | None => true
      end
  end.

(** ** The host element *)

(** A child built by [dom.$]: a tag, its class list and its text children. *)
Record Node := mkNode {
  tagName : string;
  classes : list string;
  textNodes : list string
}.

Record HTMLElement := mkElement {
  classList : list string;
  attributes : gmap string string;
  children : list Node;
  draggable : bool
}.

(** [classList.add(...tokens)]: each token is appended unless present. *)
Definition classList_add (tokens : list string) (cl : list string) : list string :=
  foldl (fun (acc : list string) (t : string) =>
           if bool_decide (t ∈ acc) then acc else acc ++ [t]) cl tokens.

(** [s.endsWith(suffix)] *)
Definition endsWith (s suffix : string) : bool :=
  let n := String.length s in
  let m := String.length suffix in
  bool_decide (m ≤ n)%nat && String.eqb (String.substring (n - m) m s) suffix.

(** ** Collaborators *)

Inductive FileKind := FILE | FOLDER | ROOT_FOLDER.

Definition ThemeIcon := string.

Inductive MenuId :=
| ChatInlineSymbolAnchorContext
| ChatInlineResourceAnchorContext.

(** [contextMenuArg] is the location for a symbol and the bare URI for a
    resource. *)
Inductive ContextMenuArg :=
| ArgLocation (l : Location)
| ArgURI (u : URI).

(** A text model held by the model service. *)
Record ITextModel := mkModel {
  model_id : nat;
  model_uri : URI
}.

#[global] Instance ITextModel_eq_dec : EqDecision ITextModel.
Proof. solve_decision. Defined.

(** The answers of the injected services that do not change while a widget
    lives, and the constants imported from other modules. *)
Record Services := mkServices {
  (* ILabelService *)
  getUriBasenameLabel : URI → string;
  getUriLabel_relative : URI → string;
  (* getIconClasses(modelService, languageService, resource, fileKind, icon) *)
  getIconClasses : option URI → option FileKind → option ThemeIcon → list string;
  (* SymbolKinds.toIcon *)
  SymbolKinds_toIcon : SymbolKind → ThemeIcon;
  (* URI.prototype.toString *)
  URI_toString : URI → string;
  (* generateUuid, as a supply indexed by the number of draws so far *)
  generateUuid : nat → string;
  (* new ResourceContextKey(...).set(uri), as its effect on the scope *)
  ResourceContextKey_set : URI → gmap string ContextKeyValue → gmap string ContextKeyValue;
  (* imported raw context keys and command ids *)
  ExplorerFolderContext : RawContextKey;
  hasDefinitionProvider : RawContextKey;
  hasReferenceProvider : RawContextKey;
  OPEN_TO_SIDE_COMMAND_ID : string
}.

(** The state of the workbench that changes under a widget. *)
Record World := mkWorld {
  (* modelService.getModel *)
  getModel : URI → option ITextModel;
  (* model.isDisposed() *)
  isDisposed : ITextModel → bool;
  (* languageFeaturesService.definitionProvider.has *)
  definitionProvider_has : ITextModel → bool;
  (* languageFeaturesService.referenceProvider.has *)
  referenceProvider_has : ITextModel → bool;
  (* number of identifiers drawn from generateUuid *)
  uuidsDrawn : nat;
  (* telemetryService.publicLog2 calls: event name and anchor id *)
  telemetry : list (string * string);
  (* contextMenuService.showContextMenu calls *)
  contextMenus : list (MenuId * ContextMenuArg);
  (* fillEditorsDragData calls *)
  dragData : list (list URI)
}.

Definition set_getModel (f : URI → option ITextModel) (w : World) : World :=
  mkWorld f (isDisposed w) (definitionProvider_has w) (referenceProvider_has w)
    (uuidsDrawn w) (telemetry w) (contextMenus w) (dragData w).
Definition set_isDisposed (f : ITextModel → bool) (w : World) : World :=
  mkWorld (getModel w) f (definitionProvider_has w) (referenceProvider_has w)
    (uuidsDrawn w) (telemetry w) (contextMenus w) (dragData w).
Definition set_definitionProvider (f : ITextModel → bool) (w : World) : World :=
  mkWorld (getModel w) (isDisposed w) f (referenceProvider_has w)
    (uuidsDrawn w) (telemetry w) (contextMenus w) (dragData w).
Definition set_referenceProvider (f : ITextModel → bool) (w : World) : World :=
  mkWorld (getModel w) (isDisposed w) (definitionProvider_has w) f
    (uuidsDrawn w) (telemetry w) (contextMenus w) (dragData w).
Definition set_uuidsDrawn (n : nat) (w : World) : World :=
  mkWorld (getModel w) (isDisposed w) (definitionProvider_has w)
    (referenceProvider_has w) n (telemetry w) (contextMenus w) (dragData w).
Definition set_telemetry (t : list (string * string)) (w : World) : World :=
  mkWorld (getModel w) (isDisposed w) (definitionProvider_has w)
    (referenceProvider_has w) (uuidsDrawn w) t (contextMenus w) (dragData w).
Definition set_contextMenus (m : list (MenuId * ContextMenuArg)) (w : World) : World :=
  mkWorld (getModel w) (isDisposed w) (definitionProvider_has w)
    (referenceProvider_has w) (uuidsDrawn w) (telemetry w) m (dragData w).
Definition set_dragData (d : list (list URI)) (w : World) : World :=
  mkWorld (getModel w) (isDisposed w) (definitionProvider_has w)
    (referenceProvider_has w) (uuidsDrawn w) (telemetry w) (contextMenus w) d.

(** ** The widget *)

(** What a listener is attached to. *)
Inductive EventSource :=
| DefinitionProviderDidChange
| ReferenceProviderDidChange
| DomEvent (type : string).

#[global] Instance EventSource_eq_dec : EqDecision EventSource.
Proof. solve_decision. Defined.

(** The closures the constructor registers, by what they capture. *)
Inductive Handler :=
| updateContents (model : ITextModel)
| publicLog (eventName : string)
| showContextMenu (menu : MenuId) (arg : ContextMenuArg)
| onDragStart (u : URI).

(** What [this._register] receives. *)
Inductive IDisposable :=
| ScopedContextKeyService
| ResourceContextKey
| Listener (source : EventSource) (h : Handler)
| ManagedHover (content : string).

Record InlineAnchorWidget := mkWidget {
  element : HTMLElement;
  inlineReference : InlineReference;
  data : ContentRefData;
  (* the values held by the service created with createScoped(element) *)
  contextKeyService : gmap string ContextKeyValue;
  _store : list IDisposable;
  (* new Lazy(generateUuid) *)
  anchorId : option string;
  (* the promise returned by fileService.stat, while it is unsettled *)
  pendingStat : option URI;
  disposed : bool
}.

Definition set_contextKeyService (c : gmap string ContextKeyValue)
  (a : InlineAnchorWidget) : InlineAnchorWidget :=
  mkWidget (element a) (inlineReference a) (data a) c (_store a)
    (anchorId a) (pendingStat a) (disposed a).
Definition set_anchorId (i : option string) (a : InlineAnchorWidget) : InlineAnchorWidget :=
  mkWidget (element a) (inlineReference a) (data a) (contextKeyService a)
    (_store a) i (pendingStat a) (disposed a).
Definition set_pendingStat (p : option URI) (a : InlineAnchorWidget) : InlineAnchorWidget :=
  mkWidget (element a) (inlineReference a) (data a) (contextKeyService a)
    (_store a) (anchorId a) p (disposed a).

Definition className : string := "chat-inline-anchor-widget".

(** [`${start}-${end}`] of a range. *)
Definition lineSpan (r : IRange) : string :=
  pretty (startLineNumber r) +:+ "-" +:+ pretty (endLineNumber r).

(** Lines 113-120: the body of [updateContents], run against the current
    registries. *)
Definition run_updateContents (sv : Services) (w : World) (model : ITextModel)
  (ctx : gmap string ContextKeyValue) : gmap string ContextKeyValue :=
  if isDisposed w model then ctx
  else
    let ctx := setContext (hasDefinitionProvider sv)
                 (CBool (definitionProvider_has w model)) ctx in
    setContext (hasReferenceProvider sv)
      (CBool (definitionProvider_has w model)) ctx.

(** The locals the two branches of the constructor assign, with the scope
    and the registrations they leave behind. *)
Record Branch := mkBranch {
  b_location : Location;
  contextMenuId : MenuId;
  contextMenuArg : ContextMenuArg;
  iconText : string;
  iconClasses : list string;
  b_context : gmap string ContextKeyValue;
  b_registered : list IDisposable;
  b_stat : option URI
}.

(** Lines 109-124: when the model of the location is loaded, the two
    provider flags are bound in the scope and written once, and
    [updateContents] is subscribed to both registries. *)
Definition bindProviderFlags (sv : Services) (w : World) (location : Location)
  (ctx : gmap string ContextKeyValue)
  : gmap string ContextKeyValue * list IDisposable :=
  match getModel w (uri location) with
  | Some model =>
      let ctx := bindTo (hasDefinitionProvider sv) ctx in
      let ctx := bindTo (hasReferenceProvider sv) ctx in
      (run_updateContents sv w model ctx,
       [Listener DefinitionProviderDidChange (updateContents model);
        Listener ReferenceProviderDidChange (updateContents model)])
  | None => (ctx, [])
  end.

(** Lines 102-136. *)
Definition symbolBranch (sv : Services) (w : World) (symbol : IWorkspaceSymbol)
  (ctx : gmap string ContextKeyValue) : Branch :=
  let location := location symbol in
  let iconText := name symbol in
  let iconClasses :=
    "codicon" :: getIconClasses sv None None (Some (SymbolKinds_toIcon sv (kind symbol))) in
  let flags := bindProviderFlags sv w location ctx in
  {| b_location := location;
     contextMenuId := ChatInlineSymbolAnchorContext;
     contextMenuArg := ArgLocation location;
     iconText := iconText;
     iconClasses := iconClasses;
     b_context := fst flags;
     b_registered :=
       snd flags ++ [Listener (DomEvent "click") (publicLog "chat.inlineAnchor.openSymbol")];
     b_stat := None |}.

(** Lines 138-171. [data] is [this.data], of which [resource] and [sub]
    are the members. *)
Definition resourceBranch (sv : Services) (data : ContentRefData)
  (resource : URI) (sub : option IRange)
  (ctx : gmap string ContextKeyValue) : Branch :=
  let location := {| uri := resource; range := sub |} in
  let ctx := ResourceContextKey_set sv (uri location) ctx in
  let ctx := setContext chatResourceContextKey
               (CString (URI_toString sv (uri location))) ctx in
  let label := getUriBasenameLabel sv (uri location) in
  let iconText :=
    match range location with
    | Some r => if negb (isSymbol data) then label +:+ "#" +:+ lineSpan r else label
    | None => label
    end in
  let fileKind := if endsWith (path (uri location)) "/" then FOLDER else FILE in
  let iconClasses := getIconClasses sv (Some (uri location)) (Some fileKind) None in
  let ctx := bindTo (ExplorerFolderContext sv) ctx in
  {| b_location := location;
     contextMenuId := ChatInlineResourceAnchorContext;
     contextMenuArg := ArgURI (uri location);
     iconText := iconText;
     iconClasses := iconClasses;
     b_context := ctx;
     b_registered :=
       [ResourceContextKey;
        Listener (DomEvent "click") (publicLog "chat.inlineAnchor.openResource")];
     b_stat := Some (uri location) |}.

(** The constructor, lines 80-209. It reads the model service and the
    definition registry and writes only to the element and to the new
    instance. *)
Definition InlineAnchorWidget_new (sv : Services) (element : HTMLElement)
  (inlineReference : InlineReference) (w : World) : InlineAnchorWidget :=
  let data := contentRefData inlineReference in
  let ctx := bindTo chatResourceContextKey ∅ in
  let cl := classList_add [className; "show-file-icons"] (classList element) in
  let b :=
    match data with
    | SymbolData symbol => symbolBranch sv w symbol ctx
    | ResourceData resource sub => resourceBranch sv data resource sub ctx
    end in
  let iconEl :=
    {| tagName := "span"; classes := classList_add (iconClasses b) ["icon"];
       textNodes := [] |} in
  let labelEl :=
    {| tagName := "span"; classes := ["icon-label"]; textNodes := [iconText b] |} in
  let fragment :=
    match range (b_location b) with
    | Some r => lineSpan r
    | None => ""
    end in
  let href := URI_toString sv (URI_with_fragment (uri (b_location b)) fragment) in
  {| element :=
       {| classList := cl;
          attributes := <["data-href" := href]> (attributes element);
          children := [iconEl; labelEl];
          draggable := true |};
     inlineReference := inlineReference;
     data := data;
     contextKeyService := b_context b;
     _store :=
       [ScopedContextKeyService] ++ b_registered b ++
       [Listener (DomEvent "contextmenu")
          (showContextMenu (contextMenuId b) (contextMenuArg b));
        ManagedHover (getUriLabel_relative sv (uri (b_location b)));
        Listener (DomEvent "dragstart") (onDragStart (uri (b_location b)))];
     anchorId := None;
     pendingStat := b_stat b;
     disposed := false |}.

(** What the constructor leaves on the element for display. *)
Definition labelText (e : HTMLElement) : option string :=
  n ← children e !! 1%nat; textNodes n !! 0%nat.

Definition iconClassList (e : HTMLElement) : option (list string) :=
  classes <$> children e !! 0%nat.

Definition linkTarget (e : HTMLElement) : option string :=
  attributes e !! "data-href".

Record DisplayData := mkDisplayData {
  dd_labelText : option string;
  dd_iconClasses : option (list string);
  dd_linkTarget : option string
}.

Definition displayData (a : InlineAnchorWidget) : DisplayData :=
  {| dd_labelText := labelText (element a);
     dd_iconClasses := iconClassList (element a);
     dd_linkTarget := linkTarget (element a) |}.

(** ** Promises *)

(** A settled promise. *)
Inductive Settled (A : Type) :=
| Fulfilled (value : A)
| Rejected (reason : string).
Arguments Fulfilled {A} value.
Arguments Rejected {A} reason.

(** [p.then(onFulfilled)] for a handler that acts on a state [Σ]: a
    rejection passes through untouched. *)
Definition Promise_then {Σ A B : Type} (p : Settled A)
  (onFulfilled : A → Σ → Σ * Settled B) (σ : Σ) : Σ * Settled B :=
  match p with
  | Fulfilled a => onFulfilled a σ
  | Rejected e => (σ, Rejected e)
  end.

(** [p.catch(onRejected)] *)
Definition Promise_catch {Σ A : Type} (p : Settled A)
  (onRejected : string → Σ → Σ * Settled A) (σ : Σ) : Σ * Settled A :=
  match p with
  | Fulfilled a => (σ, Fulfilled a)
  | Rejected e => onRejected e σ
  end.

(** [IFileStat], as far as the widget reads it. *)
Record IFileStat := mkStat { isDirectory : bool }.

(** Lines 155-159: the chain hung on [fileService.stat(location.uri)],
    acting on the scope the folder key is bound to. *)
Definition statChain (sv : Services) (r : Settled IFileStat)
  (ctx : gmap string ContextKeyValue)
  : gmap string ContextKeyValue * Settled unit :=
  let '(ctx, p) :=
    Promise_then r
      (fun stat ctx =>
         (setContext (ExplorerFolderContext sv) (CBool (isDirectory stat)) ctx,
          Fulfilled tt))
      ctx in
  Promise_catch p (fun _ ctx => (ctx, Fulfilled tt)) ctx.

(** ** Events in the life of a widget *)

Inductive Event :=
(* the definition registry changes and announces it *)
| DefinitionProviderChanged (has : ITextModel → bool)
(* the reference registry changes and announces it *)
| ReferenceProviderChanged (has : ITextModel → bool)
(* the model service creates a model *)
| ModelAdded (m : ITextModel)
(* a model is disposed of and leaves the model service *)
| ModelRemoved (m : ITextModel)
(* the promise of fileService.stat settles *)
| StatSettled (r : Settled IFileStat)
(* a DOM event of the given type reaches the element *)
| Dom (type : string)
(* widget.dispose() *)
| Dispose.

(** [anchorId.value]: the identifier is drawn on first use. *)
Definition anchorId_value (sv : Services) (st : World * InlineAnchorWidget)
  : string * (World * InlineAnchorWidget) :=
  let '(w, a) := st in
  match anchorId a with
  | Some id => (id, st)
  | None =>
      let id := generateUuid sv (uuidsDrawn w) in
      (id, (set_uuidsDrawn (Datatypes.S (uuidsDrawn w)) w, set_anchorId (Some id) a))
  end.

(** Running one registered closure. *)
Definition handle (sv : Services) (h : Handler) (st : World * InlineAnchorWidget)
  : World * InlineAnchorWidget :=
  match h with
  | updateContents model =>
      let '(w, a) := st in
      (w, set_contextKeyService (run_updateContents sv w model (contextKeyService a)) a)
  | publicLog eventName =>
      let '(id, (w, a)) := anchorId_value sv st in
      (set_telemetry (telemetry w ++ [(eventName, id)]) w, a)
  | showContextMenu menu arg =>
      let '(w, a) := st in
      (set_contextMenus (contextMenus w ++ [(menu, arg)]) w, a)
  | onDragStart u =>
      let '(w, a) := st in
      (set_dragData (dragData w ++ [[u]]) w, a)
  end.

(** The listeners among [ds] that are attached to [source] run in
    registration order. *)
Definition dispatch (sv : Services) (source : EventSource) (ds : list IDisposable)
  (st : World * InlineAnchorWidget) : World * InlineAnchorWidget :=
  foldl
    (fun st d =>
       match d with
       | Listener on h => if decide (on = source) then handle sv h st else st
       | _ => st
       end)
    st ds.

(** An event source fires on the widget. *)
Definition fire (sv : Services) (source : EventSource)
  (st : World * InlineAnchorWidget) : World * InlineAnchorWidget :=
  dispatch sv source (_store (snd st)) st.

(** Modelled from the spec: [dispose()] of [Disposable] releases "all
    attached listeners and scoped context state". *)
Definition dispose (a : InlineAnchorWidget) : InlineAnchorWidget :=
  mkWidget (element a) (inlineReference a) (data a) ∅ []
    (anchorId a) (pendingStat a) true.

(** One event. A settling stat promise runs its chain once; on a disposed
    widget its write is suppressed, as the specification requires of the
    disposal mechanism. *)
Definition step (sv : Services) (st : World * InlineAnchorWidget) (e : Event)
  : World * InlineAnchorWidget :=
  let '(w, a) := st in
  match e with
  | DefinitionProviderChanged has =>
      fire sv DefinitionProviderDidChange (set_definitionProvider has w, a)
  | ReferenceProviderChanged has =>
      fire sv ReferenceProviderDidChange (set_referenceProvider has w, a)
  | ModelAdded m =>
      (set_getModel
         (fun u => if decide (u = model_uri m) then Some m else getModel w u) w, a)
  | ModelRemoved m =>
      (set_getModel
         (fun u => if decide (getModel w u = Some m) then None else getModel w u)
         (set_isDisposed
            (fun m' => if decide (m' = m) then true else isDisposed w m') w), a)
  | StatSettled r =>
      match pendingStat a with
      | Some _ =>
          let a := set_pendingStat None a in
          if disposed a then (w, a)
          else (w, set_contextKeyService (fst (statChain sv r (contextKeyService a))) a)
      | None => st
      end
  | Dom type => fire sv (DomEvent type) st
  | Dispose => (w, dispose a)
  end.

(** A run of events after construction. *)
Definition run (sv : Services) (st : World * InlineAnchorWidget) (es : list Event)
  : World * InlineAnchorWidget :=
  foldl (step sv) st es.

(** A registration that listens to one of the provider registries. *)
Definition subscribesToProviders (d : IDisposable) : bool :=
  match d with
  | Listener DefinitionProviderDidChange _ => true
  | Listener ReferenceProviderDidChange _ => true
  | _ => false
  end.

(** A registration whose closure is [updateContents]. *)
Definition updatesFlags (d : IDisposable) : bool :=
  match d with
  | Listener _ (updateContents _) => true
  | _ => false
  end.

(** The scope holds no value for [k] and no stat request is under way. *)
Definition unset (k : string) (a : InlineAnchorWidget) : Prop :=
  contextKeyService a !! k = None ∧ pendingStat a = None.

(** The scope is empty, no stat request is under way, and nothing in the
    store listens to a provider registry or runs [updateContents]. *)
Definition flagless (a : InlineAnchorWidget) : Prop :=
  contextKeyService a = ∅ ∧ pendingStat a = None ∧
  Forall (λ d, subscribesToProviders d = false ∧ updatesFlags d = false) (_store a).

(** ** Registered actions *)

(** The options an [Action2] is registered with, as far as they decide
    where and when it applies. *)
Record Action2 := mkAction2 {
  action_id : string;
  precondition : option ContextKeyExpression;
  menu : list (MenuId * option ContextKeyExpression);
  keybinding : bool
}.

(** Lines 218-233. *)
Definition AddFileToChatAction (sv : Services) : Action2 :=
  {| action_id := "chat.inlineResourceAnchor.addFileToChat";
     precondition := None;
     menu := [(ChatInlineResourceAnchorContext, Some (Negate (ExplorerFolderContext sv)))];
     keybinding := false |}.

(** Lines 252-267. *)
Definition CopyResourceAction : Action2 :=
  {| action_id := "chat.inlineResourceAnchor.copyResource";
     precondition := Some (Defined chatResourceContextKey);
     menu := [];
     keybinding := true |}.

(** Lines 282-300; the source names this class [CopyResourceAction] too. *)
Definition OpenToSideAction : Action2 :=
  {| action_id := "chat.inlineResourceAnchor.openToSide";
     precondition := Some (Defined chatResourceContextKey);
     menu := [];
     keybinding := true |}.

(** Lines 319-337. *)
Definition GoToDefinitionAction (sv : Services) : Action2 :=
  {| action_id := "chat.inlineSymbolAnchor.goToDefinition";
     precondition := Some (Defined (hasDefinitionProvider sv));
     menu := [(ChatInlineSymbolAnchorContext, None)];
     keybinding := false |}.

(** Lines 356-374. *)
Definition GoToReferencesAction (sv : Services) : Action2 :=
  {| action_id := "chat.inlineSymbolAnchor.goToReferences";
     precondition := Some (Defined (hasReferenceProvider sv));
     menu := [(ChatInlineSymbolAnchorContext, None)];
     keybinding := false |}.

(** An action is enabled in a scope when its precondition holds there. *)
Definition enabled (ambient scoped : gmap string ContextKeyValue) (a : Action2) : bool :=
  match precondition a with
  | Some e => contextMatchesRules ambient scoped e
  | None => true
  end.

(** What the keybinding actions reach through the accessor. *)
Record Accessor := mkAccessor {
  (* IChatMarkdownAnchorService.lastFocusedAnchor *)
  lastFocusedAnchor : option InlineAnchorWidget;
  (* IClipboardService.writeResources calls *)
  writtenResources : list (list URI);
  (* ICommandService.executeCommand calls *)
  executedCommands : list (string * URI)
}.

(** Lines 269-279: [run(accessor)] of the copy action. *)
Definition CopyResourceAction_run (acc : Accessor) : Accessor :=
  match lastFocusedAnchor acc with
  | None => acc
  | Some anchor =>
      match data anchor with
      | SymbolData _ => acc
      | ResourceData resource _ =>
          mkAccessor (lastFocusedAnchor acc)
            (writtenResources acc ++ [[resource]]) (executedCommands acc)
      end
  end.

(** Lines 302-312: [run(accessor)] of the open-to-side action. *)
Definition OpenToSideAction_run (sv : Services) (acc : Accessor) : Accessor :=
  match lastFocusedAnchor acc with
  | None => acc
  | Some anchor =>
      match data anchor with
      | SymbolData _ => acc
      | ResourceData resource _ =>
          mkAccessor (lastFocusedAnchor acc) (writtenResources acc)
            (executedCommands acc ++ [(OPEN_TO_SIDE_COMMAND_ID sv, resource)])
      end
  end.

(** ** The remaining actions *)

(** [ChatAgentLocation], the place a chat widget lives in. *)
Definition ChatAgentLocation := string.

(** [IChatWidget], as far as the action reads it. *)
Record IChatWidget := mkChatWidget { widget_location : ChatAgentLocation }.

(** What the add-file action reaches through the accessor. *)
Record ChatAccessor := mkChatAccessor {
  (* IChatWidgetService.lastFocusedWidget *)
  lastFocusedWidget : option IChatWidget;
  (* IChatVariablesService.attachContext calls *)
  attachedContext : list (string * URI * ChatAgentLocation)
}.

(** Lines 235-245: [run(accessor, resource)] of the add-file action. *)
Definition AddFileToChatAction_run (acc : ChatAccessor) (resource : URI) : ChatAccessor :=
  match lastFocusedWidget acc with
  | None => acc
  | Some widget =>
      mkChatAccessor (lastFocusedWidget acc)
        (attachedContext acc ++ [("file", resource, widget_location widget)])
  end.

(** The calls the two symbol actions make, in the order they are made. *)
Inductive NavigationCall :=
| openCodeEditor (resource : URI) (line column : Z)
| runDefinitionAction (openToSide openInPeek muteMessage : bool)
| executeCommand (id : string).

(** Lines 339-353: [run(accessor, location)] of Go to Definition. The
    argument of [openCodeEditor] reads [location.range.startColumn], which
    throws when the location has no range; [opened] and [ran] are what the
    promises of [openCodeEditor] and of [DefinitionAction.run] settle to. *)
Definition GoToDefinitionAction_run (opened ran : Settled unit)
  (location : Location) (calls : list NavigationCall)
  : list NavigationCall * Settled unit :=
  match range location with
  | None => (calls, Rejected "TypeError")
  | Some rg =>
      Promise_then opened
        (fun _ calls => (calls ++ [runDefinitionAction false false true], ran))
        (calls ++ [openCodeEditor (uri location) (startLineNumber rg) (startColumn rg)])
  end.

(** Lines 376-390: [run(accessor, location)] of Go to References;
    [executed] is what the promise of [executeCommand] settles to. *)
Definition GoToReferencesAction_run (opened executed : Settled unit)
  (location : Location) (calls : list NavigationCall)
  : list NavigationCall * Settled unit :=
  match range location with
  | None => (calls, Rejected "TypeError")
  | Some rg =>
      Promise_then opened
        (fun _ calls => (calls ++ [executeCommand "editor.action.goToReferences"], executed))
        (calls ++ [openCodeEditor (uri location) (startLineNumber rg) (startColumn rg)])
  end.


(** ** Reading a run of events *)

(** The local [location] of the constructor: the symbol's location, or the
    resource data itself (lines 102 and 138). *)
Definition locationOf (d : ContentRefData) : Location :=
  match d with
  | SymbolData symbol => location symbol
  | ResourceData resource sub => {| uri := resource; range := sub |}
  end.

(** The telemetry event a click publishes (lines 133 and 168). *)
Definition clickEvent (d : ContentRefData) : string :=
  match d with
  | SymbolData _ => "chat.inlineAnchor.openSymbol"
  | ResourceData _ _ => "chat.inlineAnchor.openResource"
  end.

(** The menu a context-menu event asks for and the argument its actions
    receive (lines 103-104 and 139-140). *)
Definition menuOf (d : ContentRefData) : MenuId * ContextMenuArg :=
  match d with
  | SymbolData symbol => (ChatInlineSymbolAnchorContext, ArgLocation (location symbol))
  | ResourceData resource _ => (ChatInlineResourceAnchorContext, ArgURI resource)
  end.

(** How many DOM events of type [t] reach the element before the widget is
    disposed of. *)
Fixpoint domEvents (t : string) (es : list Event) : nat :=
  match es with
  | [] => 0
  | Dispose :: _ => 0
  | Dom t' :: es => (if decide (t' = t) then 1 else 0) + domEvents t es
  | _ :: es => domEvents t es
  end.

(** What the stat promise settles to, if it does so before the widget is
    disposed of; a promise settles once. *)
Fixpoint firstStat (es : list Event) : option (Settled IFileStat) :=
  match es with
  | [] => None
  | Dispose :: _ => None
  | StatSettled r :: _ => Some r
  | _ :: es => firstStat es
  end.

(** [Dispose] occurs in the run. *)
Fixpoint disposes (es : list Event) : bool :=
  match es with
  | [] => false
  | Dispose :: _ => true
  | _ :: es => disposes es
  end.

(** A registration that no DOM event reaches and that writes to nothing but
    the scope: anything that is not a listener, and [updateContents] on a
    provider registry. *)
Definition quiet (d : IDisposable) : bool :=
  match d with
  | Listener (DomEvent _) _ => false
  | Listener _ (updateContents _) => true
  | Listener _ _ => false
  | _ => true
  end.

(** The four registrations both branches end with (lines 126, 161,
    182-208). *)
Definition domListeners (sv : Services) (d : ContentRefData) : list IDisposable :=
  [Listener (DomEvent "click") (publicLog (clickEvent d));
   Listener (DomEvent "contextmenu") (showContextMenu (fst (menuOf d)) (snd (menuOf d)));
   ManagedHover (getUriLabel_relative sv (uri (locationOf d)));
   Listener (DomEvent "dragstart") (onDragStart (uri (locationOf d)))].

(** The store of a widget that was built with registrations [ds] and has
    either kept them or been disposed of. *)
Definition keeps (ds : list IDisposable) (a : InlineAnchorWidget) : Prop :=
  (disposed a = false ∧ _store a = ds) ∨ (disposed a = true ∧ _store a = []).

(** The identifier a widget built in world [w0] reports once it has been
    clicked [n] times. *)
Definition anchorIdAfter (sv : Services) (w0 : World) (n : nat) : option string :=
  match n with
  | 0 => None
  | _ => Some (generateUuid sv (uuidsDrawn w0))
  end.

(** The logs of the workbench after [n] clicks, [c] context-menu events
    and [g] drag starts on a widget for [d] built in world [w0]. *)
Definition logged (sv : Services) (d : ContentRefData) (w0 : World)
  (n c g : nat) (w : World) : Prop :=
  telemetry w
    = telemetry w0 ++ replicate n (clickEvent d, generateUuid sv (uuidsDrawn w0)) ∧
  uuidsDrawn w = (uuidsDrawn w0 + match n with 0 => 0 | _ => 1 end)%nat ∧
  contextMenus w = contextMenus w0 ++ replicate c (menuOf d) ∧
  dragData w = dragData w0 ++ replicate g [uri (locationOf d)].

(** The widget still has the registrations it was built with, a quiet
    part [pre] and the DOM listeners, and has drawn its identifier if and
    only if it was clicked. *)
Definition live (sv : Services) (d : ContentRefData) (w0 : World)
  (pre : list IDisposable) (n : nat) (a : InlineAnchorWidget) : Prop :=
  disposed a = false ∧ _store a = pre ++ domListeners sv d ∧
  anchorId a = anchorIdAfter sv w0 n.

(** The store of a symbol anchor built while the model [m] of its location
    was loaded (lines 88, 122-123 and the four closing registrations). *)
Definition symbolStore (sv : Services) (s : IWorkspaceSymbol) (m : ITextModel)
  : list IDisposable :=
  [ScopedContextKeyService;
   Listener DefinitionProviderDidChange (updateContents m);
   Listener ReferenceProviderDidChange (updateContents m)]
  ++ domListeners sv (SymbolData s).

(** As long as the widget and the model [m] live, both provider flags
    hold the present answer of the definition registry for [m]. *)
Definition current (sv : Services) (m : ITextModel)
  (st : World * InlineAnchorWidget) : Prop :=
  disposed (snd st) = false → isDisposed (fst st) m = false →
  contextKeyService (snd st) !! key (hasDefinitionProvider sv)
    = Some (CBool (definitionProvider_has (fst st) m)) ∧
  contextKeyService (snd st) !! key (hasReferenceProvider sv)
    = Some (CBool (definitionProvider_has (fst st) m)).

(** ** A concrete workbench

    Used to run the definitions on the examples of the specification. *)
Module Demo.

(** The part of the path after its last separator. *)
Fixpoint basename (p : string) : string :=
  match p with
  | EmptyString => EmptyString
  | String c rest =>
      if bool_decide (c = "/"%char) then basename rest
      else
        match index 0 "/" rest with
        | Some _ => basename rest
        | None => p
        end
  end.

(** Components joined without any escaping. *)
Definition toString (u : URI) : string :=
  scheme u +:+ "://" +:+ authority u +:+ path u
    +:+ (if String.eqb (query u) "" then "" else "?" +:+ query u)
    +:+ (if String.eqb (fragment u) "" then "" else "#" +:+ fragment u).

Definition services : Services :=
  {| getUriBasenameLabel := fun u => basename (path u);
     getUriLabel_relative := fun u => path u;
     getIconClasses := fun resource fileKind icon =>
       match icon, fileKind with
       | Some i, _ => ["codicon-" +:+ i]
       | None, Some FOLDER => ["folder-icon"]
       | None, _ => ["file-icon"]
       end;
     SymbolKinds_toIcon := fun k => "symbol-" +:+ pretty k;
     URI_toString := toString;
     generateUuid := fun n => "uuid-" +:+ pretty n;
     ResourceContextKey_set := fun u ctx =>
       <["resource" := CString (toString u)]> ctx;
     ExplorerFolderContext :=
       {| key := "explorerResourceIsFolder"; defaultValue := Some (CBool false) |};
     hasDefinitionProvider :=
       {| key := "editorHasDefinitionProvider"; defaultValue := Some (CBool false) |};
     hasReferenceProvider :=
       {| key := "editorHasReferenceProvider"; defaultValue := Some (CBool false) |};
     OPEN_TO_SIDE_COMMAND_ID := "explorer.openToSide" |}.

Definition file : URI :=
  {| scheme := "file"; authority := ""; path := "/a/b.txt"; query := ""; fragment := "" |}.

Definition lines_3_5 : IRange :=
  {| startLineNumber := 3; startColumn := 1; endLineNumber := 5; endColumn := 1 |}.

Definition symbol : IWorkspaceSymbol :=
  {| name := "parse"; containerName := None; kind := 11%N; tags := None;
     location := {| uri := file; range := Some lines_3_5 |} |}.

Definition model : ITextModel := {| model_id := 0; model_uri := file |}.

Definition blank : HTMLElement :=
  {| classList := []; attributes := ∅; children := []; draggable := false |}.

(** No model loaded, no provider registered. *)
Definition idle : World :=
  {| getModel := fun _ => None;
     isDisposed := fun _ => false;
     definitionProvider_has := fun _ => false;
     referenceProvider_has := fun _ => false;
     uuidsDrawn := 0;
     telemetry := [];
     contextMenus := [];
     dragData := [] |}.

(** The model of [file] is loaded; a definition provider covers it and
    no reference provider does. *)
Definition definitions_only : World :=
  {| getModel := fun u => if decide (u = file) then Some model else None;
     isDisposed := fun _ => false;
     definitionProvider_has := fun _ => true;
     referenceProvider_has := fun _ => false;
     uuidsDrawn := 0;
     telemetry := [];
     contextMenus := [];
     dragData := [] |}.

End Demo.

(** The examples of section 8 of the specification. *)
Example resource_without_range :
  let a := InlineAnchorWidget_new Demo.services Demo.blank
             (RefURI Demo.file) Demo.idle in
  labelText (element a) = Some "b.txt" ∧
  linkTarget (element a) = Some "file:///a/b.txt".
Proof. vm_compute. split; reflexivity. Qed.

Example resource_with_range :
  let a := InlineAnchorWidget_new Demo.services Demo.blank
             (RefLocation {| uri := Demo.file; range := Some Demo.lines_3_5 |})
             Demo.idle in
  labelText (element a) = Some "b.txt#3-5" ∧
  linkTarget (element a) = Some "file:///a/b.txt#3-5".
Proof. vm_compute. split; reflexivity. Qed.

Example symbol_label_and_icons :
  let a := InlineAnchorWidget_new Demo.services Demo.blank
             (RefSymbol Demo.symbol) Demo.idle in
  labelText (element a) = Some "parse" ∧
  iconClassList (element a) = Some ["icon"; "codicon"; "codicon-symbol-11"].
Proof. vm_compute. split; reflexivity. Qed.

(** * Properties *)

(** ** Classification *)

Lemma has_name_symbol (r : InlineReference) :
  has_property "name" r = true → ∃ s, r = RefSymbol s.
Proof.
  destruct r as [u | [u [rg|]] | s]; vm_compute; intros H;
    try discriminate; eauto.
Qed.

Lemma has_uri_location (r : InlineReference) :
  has_property "uri" r = true → ∃ l, r = RefLocation l.
Proof.
  destruct r as [u | l | [n [c|] k [t|] l]]; vm_compute; intros H;
    try discriminate; eauto.
Qed.

Lemma neither_is_bare_uri (r : InlineReference) :
  has_property "name" r = false → has_property "uri" r = false →
  ∃ u, r = RefURI u.
Proof.
  destruct r as [u | [u [rg|]] | [n [c|] k [t|] l]]; vm_compute; intros H1 H2;
    try discriminate; eauto.
Qed.

(** The three arms of lines 82-86, in the order the source tests them. *)
Lemma contentRefData_tests (r : InlineReference) :
  (has_property "uri" r = true →
     ∃ l, r = RefLocation l ∧ contentRefData r = ResourceData (uri l) (range l)) ∧
  (has_property "uri" r = false → has_property "name" r = true →
     ∃ s, r = RefSymbol s ∧ contentRefData r = SymbolData s) ∧
  (has_property "uri" r = false → has_property "name" r = false →
     ∃ u, r = RefURI u ∧ contentRefData r = ResourceData u None).
Proof.
  split; [| split].
  - intros H. destruct (has_uri_location r H) as [l ->]. eauto.
  - intros _ H. destruct (has_name_symbol r H) as [s ->]. eauto.
  - intros Hu Hn. destruct (neither_is_bare_uri r Hn Hu) as [u ->]. eauto.
Qed.

Lemma data_new (sv : Services) (el : HTMLElement) (r : InlineReference) (w : World) :
  data (InlineAnchorWidget_new sv el r w) = contentRefData r.
Proof. reflexivity. Qed.

(** C1. A payload with a [name] member is classified as the symbol variant
    wrapping that very descriptor, a payload with a [uri] member as the
    resource variant carrying its [uri] and optional [range]; the variant
    stored in [data] depends on the payload alone, not on the services, the
    element or the state of the workbench. *)
Theorem C1_classification (r : InlineReference) (sv sv' : Services)
  (el el' : HTMLElement) (w w' : World) :
  (has_property "name" r = true →
     ∃ s, r = RefSymbol s ∧ data (InlineAnchorWidget_new sv el r w) = SymbolData s) ∧
  (has_property "uri" r = true →
     ∃ l, r = RefLocation l ∧
          data (InlineAnchorWidget_new sv el r w) = ResourceData (uri l) (range l)) ∧
  data (InlineAnchorWidget_new sv el r w) = contentRefData r ∧
  data (InlineAnchorWidget_new sv el r w) = data (InlineAnchorWidget_new sv' el' r w').
Proof.
  split; [| split; [| split]].
  - intros H. destruct (has_name_symbol r H) as [s ->]. eauto.
  - intros H. destruct (has_uri_location r H) as [l ->]. eauto.
  - reflexivity.
  - reflexivity.
Qed.

Lemma C1_classification_witness :
  has_property "name" (RefSymbol Demo.symbol) = true ∧
  has_property "uri" (RefLocation (location Demo.symbol)) = true ∧
  (∃ s, RefSymbol Demo.symbol = RefSymbol s ∧
        data (InlineAnchorWidget_new Demo.services Demo.blank
                (RefSymbol Demo.symbol) Demo.idle) = SymbolData s) ∧
  (∃ l, RefLocation (location Demo.symbol) = RefLocation l ∧
        data (InlineAnchorWidget_new Demo.services Demo.blank
                (RefLocation (location Demo.symbol)) Demo.idle)
          = ResourceData (uri l) (range l)).
Proof.
  split; [reflexivity |]. split; [reflexivity |]. split.
  - apply (proj1 (C1_classification (RefSymbol Demo.symbol)
                    Demo.services Demo.services Demo.blank Demo.blank
                    Demo.idle Demo.idle)).
    reflexivity.
  - apply (proj1 (proj2 (C1_classification (RefLocation (location Demo.symbol))
                    Demo.services Demo.services Demo.blank Demo.blank
                    Demo.idle Demo.idle))).
    reflexivity.
Defined.

(** C6, as the code has it. A payload with neither a [name] nor a [uri]
    member is the bare URI of the union: it is wrapped as a resource
    reference to that URI without a range, and the constructor builds the
    widget for it, stat request included. *)
Theorem C6_bare_uri_is_a_resource (r : InlineReference) (sv : Services)
  (el : HTMLElement) (w : World) :
  has_property "name" r = false → has_property "uri" r = false →
  ∃ u, r = RefURI u ∧
       data (InlineAnchorWidget_new sv el r w) = ResourceData u None ∧
       pendingStat (InlineAnchorWidget_new sv el r w) = Some u ∧
       labelText (element (InlineAnchorWidget_new sv el r w))
         = Some (getUriBasenameLabel sv u).
Proof.
  intros Hn Hu. destruct (neither_is_bare_uri r Hn Hu) as [u ->].
  exists u. repeat split.
Qed.

Lemma C6_bare_uri_is_a_resource_witness :
  has_property "name" (RefURI Demo.file) = false ∧
  has_property "uri" (RefURI Demo.file) = false ∧
  ∃ u, RefURI Demo.file = RefURI u ∧
       data (InlineAnchorWidget_new Demo.services Demo.blank (RefURI Demo.file) Demo.idle)
         = ResourceData u None ∧
       pendingStat (InlineAnchorWidget_new Demo.services Demo.blank
                      (RefURI Demo.file) Demo.idle) = Some u ∧
       labelText (element (InlineAnchorWidget_new Demo.services Demo.blank
                             (RefURI Demo.file) Demo.idle))
         = Some (getUriBasenameLabel Demo.services u).
Proof.
  split; [reflexivity |]. split; [reflexivity |].
  apply (C6_bare_uri_is_a_resource (RefURI Demo.file) Demo.services Demo.blank Demo.idle);
    reflexivity.
Defined.

(** C6, as stated, fails: the bare URI has neither member, and construction
    from it does not fail but yields a widget, a resource anchor labelled
    with the file's base name. *)
Lemma C6_counterexample :
  has_property "name" (RefURI Demo.file) = false ∧
  has_property "uri" (RefURI Demo.file) = false ∧
  ∃ a, InlineAnchorWidget_new Demo.services Demo.blank (RefURI Demo.file) Demo.idle = a ∧
       data a = ResourceData Demo.file None ∧
       labelText (element a) = Some "b.txt".
Proof.
  split; [reflexivity |]. split; [reflexivity |].
  eexists. split; [reflexivity |]. split; vm_compute; reflexivity.
Qed.

(** ** Display data *)

(** C3. A resource reference with a range is labelled
    [<basename>#<startLine>-<endLine>] and linked to its URI with fragment
    [<startLine>-<endLine>]; without a range the label is the bare base
    name and the fragment is empty. *)
Theorem C3_resource_label_and_fragment (sv : Services) (el : HTMLElement)
  (w : World) (r : InlineReference) (resource : URI) (sub : option IRange) :
  contentRefData r = ResourceData resource sub →
  let a := InlineAnchorWidget_new sv el r w in
  match sub with
  | Some rg =>
      labelText (element a)
        = Some (getUriBasenameLabel sv resource +:+ "#"
                  +:+ pretty (startLineNumber rg) +:+ "-" +:+ pretty (endLineNumber rg)) ∧
      linkTarget (element a)
        = Some (URI_toString sv
                  (URI_with_fragment resource
                     (pretty (startLineNumber rg) +:+ "-" +:+ pretty (endLineNumber rg))))
  | None =>
      labelText (element a) = Some (getUriBasenameLabel sv resource) ∧
      linkTarget (element a) = Some (URI_toString sv (URI_with_fragment resource ""))
  end.
Proof.
  intros H a. subst a.
  unfold labelText, linkTarget, InlineAnchorWidget_new. rewrite H. cbn.
  rewrite lookup_insert_eq.
  destruct sub as [rg|]; cbn; split; reflexivity.
Qed.

Lemma C3_resource_label_and_fragment_witness :
  labelText (element (InlineAnchorWidget_new Demo.services Demo.blank
     (RefLocation {| uri := Demo.file; range := Some Demo.lines_3_5 |}) Demo.idle))
    = Some "b.txt#3-5" ∧
  linkTarget (element (InlineAnchorWidget_new Demo.services Demo.blank
     (RefLocation {| uri := Demo.file; range := Some Demo.lines_3_5 |}) Demo.idle))
    = Some (Demo.toString (URI_with_fragment Demo.file "3-5")).
Proof.
  exact (C3_resource_label_and_fragment Demo.services Demo.blank Demo.idle
           (RefLocation {| uri := Demo.file; range := Some Demo.lines_3_5 |})
           Demo.file (Some Demo.lines_3_5) eq_refl).
Defined.

(** C4, as the code has it. The link target of a symbol reference is the
    URI of the symbol's location with its fragment set to
    [<startLine>-<endLine>] when that location carries a range, and with an
    empty fragment when it does not. *)
Theorem C4_symbol_link_target (sv : Services) (el : HTMLElement) (w : World)
  (s : IWorkspaceSymbol) :
  linkTarget (element (InlineAnchorWidget_new sv el (RefSymbol s) w))
    = Some (URI_toString sv
              (URI_with_fragment (uri (location s))
                 (match range (location s) with
                  | Some rg =>
                      pretty (startLineNumber rg) +:+ "-" +:+ pretty (endLineNumber rg)
                  | None => ""
                  end))).
Proof.
  unfold linkTarget, InlineAnchorWidget_new. cbn.
  rewrite lookup_insert_eq.
  destruct (range (location s)); reflexivity.
Qed.

(** C4, as stated, fails: for a symbol located at lines 3 to 5 of
    [file:///a/b.txt] the element links to [file:///a/b.txt#3-5], which is
    neither the location's URI nor that URI with an empty fragment. *)
Lemma C4_counterexample :
  let a := InlineAnchorWidget_new Demo.services Demo.blank
             (RefSymbol Demo.symbol) Demo.idle in
  data a = SymbolData Demo.symbol ∧
  linkTarget (element a) = Some "file:///a/b.txt#3-5" ∧
  linkTarget (element a) ≠ Some (Demo.toString (uri (location Demo.symbol))) ∧
  linkTarget (element a)
    ≠ Some (Demo.toString (URI_with_fragment (uri (location Demo.symbol)) "")).
Proof.
  vm_compute. repeat split; discriminate.
Qed.

(** C8. Two widgets built from the same inline reference with the same
    collaborator answers carry the same display data, whatever elements
    they are bound to and whatever the state of the workbench at each
    construction: in particular the events the first widget went through
    leave no trace in the second one's label, icon classes and link. *)
Theorem C8_display_data_deterministic (sv : Services) (r : InlineReference)
  (el1 el2 : HTMLElement) (w1 w2 : World) (es : list Event) :
  displayData (InlineAnchorWidget_new sv el1 r w1)
    = displayData (InlineAnchorWidget_new sv el2 r w2) ∧
  displayData
    (InlineAnchorWidget_new sv el2 r
       (fst (run sv (w1, InlineAnchorWidget_new sv el1 r w1) es)))
    = displayData (InlineAnchorWidget_new sv el1 r w1).
Proof.
  assert (Hind : ∀ e e' x x',
    displayData (InlineAnchorWidget_new sv e r x)
      = displayData (InlineAnchorWidget_new sv e' r x')).
  { intros e e' x x'.
    unfold displayData, labelText, iconClassList, linkTarget, InlineAnchorWidget_new.
    cbn. rewrite !lookup_insert_eq.
    destruct (contentRefData r) as [s | u sub]; reflexivity. }
  split; apply Hind.
Qed.

(** ** Keybinding actions *)

(** C5. The copy and open-to-side actions run on the accessor alone. When
    no anchor was focused last, or the last focused anchor is a symbol,
    both leave everything they can reach as it was: nothing is written to
    the clipboard and no command is executed. *)
Theorem C5_keybinding_actions_noop (sv : Services) (acc : Accessor) :
  (lastFocusedAnchor acc = None ∨
   ∃ anchor s, lastFocusedAnchor acc = Some anchor ∧ data anchor = SymbolData s) →
  CopyResourceAction_run acc = acc ∧
  OpenToSideAction_run sv acc = acc ∧
  writtenResources (CopyResourceAction_run acc) = writtenResources acc ∧
  executedCommands (OpenToSideAction_run sv acc) = executedCommands acc.
Proof.
  intros [H | (anchor & s & H & Hs)];
    unfold CopyResourceAction_run, OpenToSideAction_run; rewrite H;
    try rewrite Hs; repeat split.
Qed.

Lemma C5_keybinding_actions_noop_witness :
  let acc :=
    {| lastFocusedAnchor :=
         Some (InlineAnchorWidget_new Demo.services Demo.blank
                 (RefSymbol Demo.symbol) Demo.idle);
       writtenResources := [];
       executedCommands := [] |} in
  CopyResourceAction_run acc = acc ∧
  OpenToSideAction_run Demo.services acc = acc ∧
  writtenResources (CopyResourceAction_run acc) = writtenResources acc ∧
  executedCommands (OpenToSideAction_run Demo.services acc) = executedCommands acc.
Proof.
  intros acc. apply (C5_keybinding_actions_noop Demo.services acc).
  right. eexists _, Demo.symbol. split; reflexivity.
Defined.

(** ** The stat request *)

Lemma bindTo_lookup (k : RawContextKey) (ctx : gmap string ContextKeyValue) :
  bindTo k ctx !! key k = defaultValue k.
Proof.
  unfold bindTo. destruct (defaultValue k).
  - apply lookup_insert_eq.
  - apply lookup_delete_eq.
Qed.

Lemma bindTo_lookup_ne (k : RawContextKey) (ctx : gmap string ContextKeyValue)
  (j : string) :
  key k ≠ j → bindTo k ctx !! j = ctx !! j.
Proof.
  intros Hne. unfold bindTo. destruct (defaultValue k).
  - now apply lookup_insert_ne.
  - now apply lookup_delete_ne.
Qed.

(** A rejection reaching the widget in any state changes neither the
    workbench nor the scope. *)
Lemma step_stat_rejected (sv : Services) (st : World * InlineAnchorWidget)
  (reason : string) :
  fst (step sv st (StatSettled (Rejected reason))) = fst st ∧
  contextKeyService (snd (step sv st (StatSettled (Rejected reason))))
    = contextKeyService (snd st).
Proof.
  destruct st as [w a]; cbn.
  destruct (pendingStat a); [| done]. cbn.
  destruct (disposed a); done.
Qed.

(** C7. For a resource reference, a rejected stat promise is absorbed by
    the chain hung on it: the chain ends fulfilled, so nothing escapes; the
    folder key holds the default it was bound with when the constructor
    returns, and the rejection, whenever it arrives, leaves the workbench
    and every value of the widget's scope as they were. *)
Theorem C7_stat_failure_swallowed (sv : Services) (el : HTMLElement) (w : World)
  (r : InlineReference) (resource : URI) (sub : option IRange) (reason : string)
  (es : list Event) :
  contentRefData r = ResourceData resource sub →
  let a := InlineAnchorWidget_new sv el r w in
  let st := run sv (w, a) es in
  let st' := step sv st (StatSettled (Rejected reason)) in
  pendingStat a = Some resource ∧
  contextKeyService a !! key (ExplorerFolderContext sv)
    = defaultValue (ExplorerFolderContext sv) ∧
  snd (statChain sv (Rejected reason) (contextKeyService (snd st))) = Fulfilled tt ∧
  fst (statChain sv (Rejected reason) (contextKeyService (snd st)))
    = contextKeyService (snd st) ∧
  fst st' = fst st ∧
  contextKeyService (snd st') = contextKeyService (snd st).
Proof.
  intros H a st st'.
  destruct (step_stat_rejected sv st reason) as [Hw Hc].
  subst st' a. split; [| split; [| repeat split; assumption]].
  - unfold InlineAnchorWidget_new. rewrite H. reflexivity.
  - unfold InlineAnchorWidget_new. rewrite H. cbn. apply bindTo_lookup.
Qed.

Lemma C7_stat_failure_swallowed_witness :
  let a := InlineAnchorWidget_new Demo.services Demo.blank (RefURI Demo.file) Demo.idle in
  let st := run Demo.services (Demo.idle, a) [Dom "click"] in
  let st' := step Demo.services st (StatSettled (Rejected "ENOENT")) in
  contentRefData (RefURI Demo.file) = ResourceData Demo.file None ∧
  pendingStat a = Some Demo.file ∧
  contextKeyService a !! key (ExplorerFolderContext Demo.services)
    = defaultValue (ExplorerFolderContext Demo.services) ∧
  snd (statChain Demo.services (Rejected "ENOENT") (contextKeyService (snd st)))
    = Fulfilled tt ∧
  fst (statChain Demo.services (Rejected "ENOENT") (contextKeyService (snd st)))
    = contextKeyService (snd st) ∧
  fst st' = fst st ∧
  contextKeyService (snd st') = contextKeyService (snd st).
Proof.
  split; [reflexivity |].
  exact (C7_stat_failure_swallowed Demo.services Demo.blank Demo.idle
           (RefURI Demo.file) Demo.file None "ENOENT" [Dom "click"] eq_refl).
Defined.

(** ** What events leave alone *)

Section Frame.
Context (sv : Services).

Lemma anchorId_value_frame (st : World * InlineAnchorWidget) :
  let a' := snd (snd (anchorId_value sv st)) in
  contextKeyService a' = contextKeyService (snd st) ∧
  _store a' = _store (snd st) ∧
  pendingStat a' = pendingStat (snd st).
Proof.
  destruct st as [w a]. unfold anchorId_value.
  destruct (anchorId a); cbn; auto.
Qed.

(** No closure touches the store or the pending stat request. *)
Lemma handle_frame (h : Handler) (st : World * InlineAnchorWidget) :
  _store (snd (handle sv h st)) = _store (snd st) ∧
  pendingStat (snd (handle sv h st)) = pendingStat (snd st).
Proof.
  destruct h; cbn.
  - destruct st as [w a]; cbn; auto.
  - pose proof (anchorId_value_frame st) as Hf.
    destruct (anchorId_value sv st) as [i [w a]]; cbn in *. tauto.
  - destruct st as [w a]; cbn; auto.
  - destruct st as [w a]; cbn; auto.
Qed.

(** Only [updateContents] writes to the scope. *)
Lemma handle_scope (h : Handler) (st : World * InlineAnchorWidget) :
  (∀ m, h ≠ updateContents m) →
  contextKeyService (snd (handle sv h st)) = contextKeyService (snd st).
Proof.
  intros Hh. destruct h; cbn.
  - now destruct (Hh model).
  - pose proof (anchorId_value_frame st) as Hf.
    destruct (anchorId_value sv st) as [i [w a]]; cbn in *. tauto.
  - destruct st as [w a]; reflexivity.
  - destruct st as [w a]; reflexivity.
Qed.

(** And it writes the two provider flags only. *)
Lemma handle_lookup (h : Handler) (st : World * InlineAnchorWidget) (k : string) :
  key (hasDefinitionProvider sv) ≠ k → key (hasReferenceProvider sv) ≠ k →
  contextKeyService (snd (handle sv h st)) !! k = contextKeyService (snd st) !! k.
Proof.
  intros Hd Hr. destruct h as [m | | |].
  - destruct st as [w a]; cbn. unfold run_updateContents, setContext.
    destruct (isDisposed w m); [reflexivity |].
    now rewrite !lookup_insert_ne.
  - now rewrite handle_scope.
  - now rewrite handle_scope.
  - now rewrite handle_scope.
Qed.

(** A property of the widget that every closure among [ds] preserves
    survives the dispatch of an event to [ds]. *)
Lemma dispatch_preserves (P : InlineAnchorWidget → Prop) (source : EventSource)
  (ds : list IDisposable) :
  Forall (λ d, ∀ on h, d = Listener on h →
               ∀ st, P (snd st) → P (snd (handle sv h st))) ds →
  ∀ st, P (snd st) → P (snd (dispatch sv source ds st)).
Proof.
  unfold dispatch. induction 1 as [| d ds Hd _ IH]; intros st HP; cbn; [done |].
  apply IH. destruct d; try done.
  case_decide; [| done]. now apply (Hd _ _ eq_refl).
Qed.

End Frame.

(** ** Invariants of a widget's lifetime *)

Section Lifetime.
Context (sv : Services).

(** A property of the widget kept by every event holds after any run. *)
Lemma run_invariant (P : InlineAnchorWidget → Prop) :
  (∀ st e, P (snd st) → P (snd (step sv st e))) →
  ∀ es st, P (snd st) → P (snd (run sv st es)).
Proof.
  intros Hstep. unfold run.
  induction es as [| e es IH]; intros st HP; cbn; [done |].
  apply IH, Hstep, HP.
Qed.

Lemma handle_unset (k : string) (h : Handler) (st : World * InlineAnchorWidget) :
  key (hasDefinitionProvider sv) ≠ k → key (hasReferenceProvider sv) ≠ k →
  unset k (snd st) → unset k (snd (handle sv h st)).
Proof.
  intros Hd Hr [Hk Hp]. split.
  - now rewrite handle_lookup.
  - now rewrite (proj2 (handle_frame sv h st)).
Qed.

Lemma step_unset (k : string) (st : World * InlineAnchorWidget) (e : Event) :
  key (hasDefinitionProvider sv) ≠ k → key (hasReferenceProvider sv) ≠ k →
  unset k (snd st) → unset k (snd (step sv st e)).
Proof.
  intros Hd Hr HP.
  assert (Hfire : ∀ source st', unset k (snd st') → unset k (snd (fire sv source st'))).
  { intros source st' HP'. unfold fire.
    apply (dispatch_preserves sv (unset k)); [| exact HP'].
    apply Forall_forall. intros d _ on h _ st''. now apply handle_unset. }
  destruct st as [w a]. destruct e; cbn.
  - now apply Hfire.
  - now apply Hfire.
  - exact HP.
  - exact HP.
  - destruct HP as [Hk Hp]. cbn in Hp. rewrite Hp. now split.
  - now apply Hfire.
  - destruct HP as [Hk Hp]. split; [apply lookup_empty | exact Hp].
Qed.

Lemma step_flagless (st : World * InlineAnchorWidget) (e : Event) :
  flagless (snd st) → flagless (snd (step sv st e)).
Proof.
  intros HP.
  assert (Hfire : ∀ source st', flagless (snd st') → flagless (snd (fire sv source st'))).
  { intros source st' HP'. unfold fire.
    apply (dispatch_preserves sv flagless); [| exact HP'].
    destruct HP' as (_ & _ & Hs).
    eapply Forall_impl; [exact Hs |].
    intros d [_ Hu] on h -> st'' (Hc & Hp & Hs').
    destruct (handle_frame sv h st'') as [Es Ep].
    split; [| split].
    - rewrite handle_scope; [exact Hc |].
      intros m ->. destruct on; discriminate.
    - now rewrite Ep.
    - now rewrite Es. }
  destruct st as [w a]. destruct e; cbn.
  - now apply Hfire.
  - now apply Hfire.
  - exact HP.
  - exact HP.
  - destruct HP as (Hc & Hp & Hs). cbn in Hp. rewrite Hp. now repeat split.
  - now apply Hfire.
  - destruct HP as (Hc & Hp & Hs). repeat split; [exact Hp | constructor].
Qed.

(** A symbol anchor never has a stat request and starts without a value
    for the chat resource key. *)
Lemma symbol_starts_unset (el : HTMLElement) (w : World) (s : IWorkspaceSymbol) :
  key (hasDefinitionProvider sv) ≠ key chatResourceContextKey →
  key (hasReferenceProvider sv) ≠ key chatResourceContextKey →
  unset (key chatResourceContextKey) (InlineAnchorWidget_new sv el (RefSymbol s) w).
Proof.
  intros Hd Hr. split; [| reflexivity]. cbn.
  unfold bindProviderFlags. destruct (getModel w (uri (location s))) as [m|]; cbn.
  - assert (Hb : bindTo (hasReferenceProvider sv)
                   (bindTo (hasDefinitionProvider sv)
                      (bindTo chatResourceContextKey ∅))
                   !! key chatResourceContextKey = None).
    { rewrite !bindTo_lookup_ne by assumption.
      apply (bindTo_lookup chatResourceContextKey). }
    unfold run_updateContents, setContext.
    destruct (isDisposed w m); [exact Hb |].
    rewrite !lookup_insert_ne by assumption. exact Hb.
  - apply (bindTo_lookup chatResourceContextKey).
Qed.

(** Without a loaded model a symbol anchor starts with an empty scope and
    registers its three DOM listeners and the hover only. *)
Lemma symbol_without_model_flagless (el : HTMLElement) (w : World)
  (s : IWorkspaceSymbol) :
  getModel w (uri (location s)) = None →
  flagless (InlineAnchorWidget_new sv el (RefSymbol s) w).
Proof.
  intros Hm. unfold flagless, InlineAnchorWidget_new; cbn.
  unfold bindProviderFlags. rewrite Hm. cbn.
  split; [| split].
  - unfold bindTo; cbn. apply delete_empty.
  - reflexivity.
  - repeat constructor.
Qed.

(** With a live model loaded, both flags are written from the definition
    registry. *)
Lemma flags_after_construction (el : HTMLElement) (w : World)
  (s : IWorkspaceSymbol) (m : ITextModel) :
  getModel w (uri (location s)) = Some m → isDisposed w m = false →
  contextKeyService (InlineAnchorWidget_new sv el (RefSymbol s) w)
    !! key (hasReferenceProvider sv)
    = Some (CBool (definitionProvider_has w m)).
Proof.
  intros Hm Hd. cbn. unfold bindProviderFlags. rewrite Hm. cbn.
  unfold run_updateContents. rewrite Hd. apply lookup_insert_eq.
Qed.

End Lifetime.

(** ** Context keys over the lifetime *)

Lemma precondition_off (ambient scoped : gmap string ContextKeyValue) :
  scoped !! key chatResourceContextKey = None →
  ambient !! key chatResourceContextKey = None →
  enabled ambient scoped CopyResourceAction = false ∧
  enabled ambient scoped OpenToSideAction = false.
Proof.
  intros Hs Ha. unfold enabled; cbn. unfold getContextKeyValue.
  cbn in Hs, Ha. rewrite Hs, Ha. done.
Qed.

(** C9. The chat resource key, which the copy and open-to-side actions
    have as their precondition, is given a value in the resource branch of
    the constructor, the string of the resource's URI. A symbol anchor's
    scope holds no value for it after construction nor after any run of
    events, so that in such a scope the two actions are disabled whenever
    the ambient context does not supply the key. The imported keys are
    taken to be other keys than this one. *)
Theorem C9_chat_resource_key (sv : Services) (el : HTMLElement) (w : World)
  (r : InlineReference) (es : list Event) (ambient : gmap string ContextKeyValue) :
  key (hasDefinitionProvider sv) ≠ key chatResourceContextKey →
  key (hasReferenceProvider sv) ≠ key chatResourceContextKey →
  key (ExplorerFolderContext sv) ≠ key chatResourceContextKey →
  let a := InlineAnchorWidget_new sv el r w in
  let a' := snd (run sv (w, a) es) in
  match data a with
  | ResourceData resource _ =>
      contextKeyService a !! key chatResourceContextKey
        = Some (CString (URI_toString sv resource))
  | SymbolData _ =>
      contextKeyService a !! key chatResourceContextKey = None ∧
      contextKeyService a' !! key chatResourceContextKey = None ∧
      (ambient !! key chatResourceContextKey = None →
       enabled ambient (contextKeyService a') CopyResourceAction = false ∧
       enabled ambient (contextKeyService a') OpenToSideAction = false)
  end.
Proof.
  intros Hd Hr Hf a a'. subst a' a.
  destruct r as [u | l | s]; cbn [data InlineAnchorWidget_new contentRefData].
  - cbn. rewrite bindTo_lookup_ne by assumption. apply lookup_insert_eq.
  - cbn. rewrite bindTo_lookup_ne by assumption. apply lookup_insert_eq.
  - pose proof (symbol_starts_unset sv el w s Hd Hr) as H0.
    pose proof (run_invariant sv (unset (key chatResourceContextKey))
                  (λ st e, step_unset sv _ st e Hd Hr) es
                  (w, InlineAnchorWidget_new sv el (RefSymbol s) w) H0) as [H1 _].
    split; [exact (proj1 H0) |]. split; [exact H1 |].
    intros Ha. now apply precondition_off.
Qed.

Lemma C9_chat_resource_key_witness :
  let sv := Demo.services in
  let w := Demo.definitions_only in
  let es := [DefinitionProviderChanged (λ _, false); Dom "click";
             ReferenceProviderChanged (λ _, true); Dom "contextmenu"; Dispose] in
  let a := InlineAnchorWidget_new sv Demo.blank (RefSymbol Demo.symbol) w in
  let a' := snd (run sv (w, a) es) in
  key (hasDefinitionProvider sv) ≠ key chatResourceContextKey ∧
  key (hasReferenceProvider sv) ≠ key chatResourceContextKey ∧
  key (ExplorerFolderContext sv) ≠ key chatResourceContextKey ∧
  (∅ : gmap string ContextKeyValue) !! key chatResourceContextKey = None ∧
  contextKeyService a !! key chatResourceContextKey = None ∧
  contextKeyService a' !! key chatResourceContextKey = None ∧
  enabled ∅ (contextKeyService a') CopyResourceAction = false ∧
  enabled ∅ (contextKeyService a') OpenToSideAction = false.
Proof.
  intros sv w es a a'.
  assert (Hd : key (hasDefinitionProvider sv) ≠ key chatResourceContextKey)
    by discriminate.
  assert (Hr : key (hasReferenceProvider sv) ≠ key chatResourceContextKey)
    by discriminate.
  assert (Hf : key (ExplorerFolderContext sv) ≠ key chatResourceContextKey)
    by discriminate.
  destruct (C9_chat_resource_key sv Demo.blank w (RefSymbol Demo.symbol) es ∅ Hd Hr Hf)
    as (H0 & H1 & H2).
  destruct (H2 (lookup_empty _)) as [Hc Ho].
  repeat split; assumption || apply lookup_empty.
Defined.

(** C10. A symbol anchor built while the model of its location is not
    loaded has neither provider flag in its scope and no listener on either
    provider registry, and this stays so through every run of events, those
    that load the model later included. *)
Theorem C10_no_model_no_flags (sv : Services) (el : HTMLElement) (w : World)
  (s : IWorkspaceSymbol) (es : list Event) :
  getModel w (uri (location s)) = None →
  let a' := snd (run sv (w, InlineAnchorWidget_new sv el (RefSymbol s) w) es) in
  contextKeyService a' !! key (hasDefinitionProvider sv) = None ∧
  contextKeyService a' !! key (hasReferenceProvider sv) = None ∧
  Forall (λ d, subscribesToProviders d = false) (_store a').
Proof.
  intros Hm a'.
  pose proof (run_invariant sv flagless (step_flagless sv) es
                (w, InlineAnchorWidget_new sv el (RefSymbol s) w)
                (symbol_without_model_flagless sv el w s Hm)) as (Hc & _ & Hs).
  subst a'. rewrite Hc. split; [apply lookup_empty |]. split; [apply lookup_empty |].
  eapply Forall_impl; [exact Hs |]. now intros d [? _].
Qed.

Lemma C10_no_model_no_flags_witness :
  let sv := Demo.services in
  let es := [ModelAdded Demo.model; DefinitionProviderChanged (λ _, true);
             ReferenceProviderChanged (λ _, true); Dom "click"] in
  let st := run sv (Demo.idle,
                    InlineAnchorWidget_new sv Demo.blank (RefSymbol Demo.symbol) Demo.idle)
              es in
  getModel Demo.idle (uri (location Demo.symbol)) = None ∧
  getModel (fst st) (uri (location Demo.symbol)) = Some Demo.model ∧
  contextKeyService (snd st) !! key (hasDefinitionProvider sv) = None ∧
  contextKeyService (snd st) !! key (hasReferenceProvider sv) = None ∧
  Forall (λ d, subscribesToProviders d = false) (_store (snd st)).
Proof.
  intros sv es st.
  split; [reflexivity |]. split; [vm_compute; reflexivity |].
  exact (C10_no_model_no_flags sv Demo.blank Demo.idle Demo.symbol es eq_refl).
Defined.

(** When either registry announces a change, a live symbol anchor with
    its model loaded rewrites both flags, and both from the current answer
    of the definition registry. *)
Lemma flags_after_notification (sv : Services) (el : HTMLElement) (w : World)
  (s : IWorkspaceSymbol) (m : ITextModel) (e : Event) :
  getModel w (uri (location s)) = Some m → isDisposed w m = false →
  key (hasDefinitionProvider sv) ≠ key (hasReferenceProvider sv) →
  (∃ has, e = DefinitionProviderChanged has ∨ e = ReferenceProviderChanged has) →
  let st' := step sv (w, InlineAnchorWidget_new sv el (RefSymbol s) w) e in
  contextKeyService (snd st') !! key (hasDefinitionProvider sv)
    = Some (CBool (definitionProvider_has (fst st') m)) ∧
  contextKeyService (snd st') !! key (hasReferenceProvider sv)
    = Some (CBool (definitionProvider_has (fst st') m)).
Proof.
  intros Hm Hd Hne [has [-> | ->]] st'; subst st';
    cbn; unfold bindProviderFlags; rewrite Hm; cbn.
  all: repeat (case_decide; try discriminate); try congruence.
  all: cbn; unfold run_updateContents; cbn; rewrite Hd; unfold setContext.
  all: split; [rewrite lookup_insert_ne by (intros E; now apply Hne) |];
         apply lookup_insert_eq.
Qed.

(** C2, on the code. The model of the symbol's location is loaded, a
    definition provider covers it and no reference provider does. The
    constructor writes [true] to the has-reference-provider key, which is
    the answer of the definition registry, and the key keeps that value when
    the reference registry announces a change: the flag follows the wrong
    registry, and Go to References is offered with no provider behind it. *)
Theorem C2_reference_flag_reads_definition_registry :
  let sv := Demo.services in
  let w := Demo.definitions_only in
  let a := InlineAnchorWidget_new sv Demo.blank (RefSymbol Demo.symbol) w in
  let st' := step sv (w, a) (ReferenceProviderChanged (λ _, false)) in
  getModel w (uri (location Demo.symbol)) = Some Demo.model ∧
  definitionProvider_has w Demo.model = true ∧
  referenceProvider_has w Demo.model = false ∧
  contextKeyService a !! key (hasDefinitionProvider sv) = Some (CBool true) ∧
  contextKeyService a !! key (hasReferenceProvider sv) = Some (CBool true) ∧
  referenceProvider_has (fst st') Demo.model = false ∧
  contextKeyService (snd st') !! key (hasReferenceProvider sv) = Some (CBool true) ∧
  enabled ∅ (contextKeyService (snd st')) (GoToReferencesAction sv) = true.
Proof.
  vm_compute. repeat split; reflexivity.
Qed.

(** * Further properties of the widget *)

(** ** The element *)

Lemma classList_add_snoc (tokens : list string) (t : string) (cl : list string) :
  classList_add (tokens ++ [t]) cl
    = if bool_decide (t ∈ classList_add tokens cl)
      then classList_add tokens cl
      else classList_add tokens cl ++ [t].
Proof. unfold classList_add. now rewrite foldl_app. Qed.









(** ** The kind of a resource *)

Lemma substring_all (s : string) : String.substring 0 (String.length s) s = s.
Proof. induction s as [| c s IH]; cbn; [done | now rewrite IH]. Qed.

Lemma substring_append_r (p s : string) :
  String.substring (String.length p) (String.length s) (p +:+ s) = s.
Proof. induction p as [| c p IH]; simpl; [apply substring_all | exact IH]. Qed.

Lemma length_append (p s : string) :
  String.length (p +:+ s) = (String.length p + String.length s)%nat.
Proof. induction p as [| c p IH]; simpl; [done | now f_equal]. Qed.

Lemma substring_split (s : string) (k : nat) :
  (k ≤ String.length s)%nat →
  s = String.substring 0 k s +:+ String.substring k (String.length s - k) s.
Proof.
  revert k. induction s as [| c s IH]; intros k Hk.
  - destruct k; simpl in *; [done | lia].
  - destruct k as [| k]; simpl.
    + now rewrite substring_all.
    + change (String c (String.substring 0 k s) +:+ ?t)
        with (String c (String.substring 0 k s +:+ t)).
      f_equal. apply IH. simpl in Hk. lia.
Qed.

(** [endsWith] holds exactly of the strings that are something followed by
    the suffix. *)
Lemma endsWith_spec (s suffix : string) :
  endsWith s suffix = true ↔ ∃ p, s = p +:+ suffix.
Proof.
  unfold endsWith. rewrite andb_true_iff, bool_decide_eq_true, String.eqb_eq.
  split.
  - intros [Hle Hsub].
    exists (String.substring 0 (String.length s - String.length suffix) s).
    rewrite <- Hsub at 2.
    rewrite (substring_split s (String.length s - String.length suffix)) at 1 by lia.
    do 2 f_equal. lia.
  - intros [p ->]. rewrite length_append. split; [lia |].
    replace (String.length p + String.length suffix - String.length suffix)%nat
      with (String.length p) by lia.
    apply substring_append_r.
Qed.

(** X3. For a resource reference the icon is asked for a folder exactly
    when the path of the URI ends in a slash, and for a file otherwise; the
    folder context key does not follow the path and is left at the default
    it was bound with until the stat request answers. *)
Theorem X3_folder_icon_from_path (sv : Services) (el : HTMLElement) (w : World)
  (r : InlineReference) (resource : URI) (sub : option IRange) :
  contentRefData r = ResourceData resource sub →
  let a := InlineAnchorWidget_new sv el r w in
  ((∃ p, path resource = p +:+ "/") →
     iconClassList (element a)
       = Some (classList_add (getIconClasses sv (Some resource) (Some FOLDER) None)
                 ["icon"])) ∧
  ((¬ ∃ p, path resource = p +:+ "/") →
     iconClassList (element a)
       = Some (classList_add (getIconClasses sv (Some resource) (Some FILE) None)
                 ["icon"])) ∧
  contextKeyService a !! key (ExplorerFolderContext sv)
    = defaultValue (ExplorerFolderContext sv).
Proof.
  intros H a. subst a. unfold iconClassList, InlineAnchorWidget_new.
  rewrite H. cbn. split; [| split].
  - intros Hp. apply endsWith_spec in Hp. now rewrite Hp.
  - intros Hp. destruct (endsWith (path resource) "/") eqn:E; [| done].
    apply endsWith_spec in E. contradiction.
  - apply bindTo_lookup.
Qed.

Lemma X3_folder_icon_from_path_witness :
  let dir := {| scheme := "file"; authority := ""; path := "/a/src/";
                query := ""; fragment := "" |} in
  let a := InlineAnchorWidget_new Demo.services Demo.blank (RefURI dir) Demo.idle in
  iconClassList (element a) = Some ["icon"; "folder-icon"] ∧
  contextKeyService a !! "explorerResourceIsFolder" = Some (CBool false).
Proof.
  intros dir a.
  destruct (X3_folder_icon_from_path Demo.services Demo.blank Demo.idle
              (RefURI dir) dir None eq_refl) as (Hf & _ & Hk).
  split; [| exact Hk].
  apply Hf. exists "/a/src". reflexivity.
Defined.

(** ** Events reaching the listeners *)

Lemma dispatch_app (sv : Services) (source : EventSource) (ds ds' : list IDisposable)
  (st : World * InlineAnchorWidget) :
  dispatch sv source (ds ++ ds') st = dispatch sv source ds' (dispatch sv source ds st).
Proof. unfold dispatch. apply foldl_app. Qed.

Lemma set_contextKeyService_id (a : InlineAnchorWidget) :
  set_contextKeyService (contextKeyService a) a = a.
Proof. now destruct a. Qed.

(** The store of a new widget: registrations no DOM event reaches, then
    the click, context-menu, hover and drag registrations. *)
Lemma store_new (sv : Services) (el : HTMLElement) (r : InlineReference) (w : World) :
  ∃ pre, _store (InlineAnchorWidget_new sv el r w)
           = pre ++ domListeners sv (contentRefData r) ∧
         Forall (λ d, quiet d = true) pre.
Proof.
  destruct r as [u | l | s]; cbn.
  - exists [ScopedContextKeyService; ResourceContextKey]. split; [done |].
    repeat constructor.
  - exists [ScopedContextKeyService; ResourceContextKey]. split; [done |].
    repeat constructor.
  - exists (ScopedContextKeyService :: snd (bindProviderFlags sv w (location s)
                                           (bindTo chatResourceContextKey ∅))).
    split; [now rewrite <- app_assoc |].
    unfold bindProviderFlags. destruct (getModel w (uri (location s)));
      repeat constructor.
Qed.

(** Quiet registrations leave the workbench alone and change at most the
    scope of the widget; a DOM event does not even do that. *)
Lemma dispatch_quiet (sv : Services) (source : EventSource) (pre : list IDisposable) :
  Forall (λ d, quiet d = true) pre →
  ∀ w a, ∃ c, dispatch sv source pre (w, a) = (w, set_contextKeyService c a) ∧
              ((∃ t, source = DomEvent t) → c = contextKeyService a).
Proof.
  induction 1 as [| d pre Hd _ IH]; intros w a.
  - exists (contextKeyService a). now rewrite set_contextKeyService_id.
  - unfold dispatch; cbn [foldl]. fold (dispatch sv source pre).
    destruct d as [| | on h |]; try apply IH.
    destruct on as [| | t]; try discriminate;
      destruct h as [m | | |]; try discriminate.
    all: case_decide; [| apply IH]; subst source.
    all: cbn [handle].
    all: destruct (IH w (set_contextKeyService
                           (run_updateContents sv w m (contextKeyService a)) a))
           as (c & Hc & _).
    all: exists c; split; [exact Hc |]; intros [t Ht]; discriminate.
Qed.

Lemma dispatch_domListeners (sv : Services) (d : ContentRefData)
  (source : EventSource) (st : World * InlineAnchorWidget) :
  dispatch sv source (domListeners sv d) st
    = match source with
      | DomEvent t =>
          if decide (t = "click") then handle sv (publicLog (clickEvent d)) st
          else if decide (t = "contextmenu")
               then handle sv (showContextMenu (fst (menuOf d)) (snd (menuOf d))) st
          else if decide (t = "dragstart")
               then handle sv (onDragStart (uri (locationOf d))) st
          else st
      | _ => st
      end.
Proof.
  unfold dispatch, domListeners; cbn [foldl].
  destruct source as [| | t]; repeat case_decide; simplify_eq; reflexivity.
Qed.

Lemma replicate_snoc {A : Type} (n : nat) (x : A) :
  replicate n x ++ [x] = replicate (n + 1) x.
Proof. induction n as [| n IH]; cbn; [done | now rewrite IH]. Qed.

Lemma domEvents_cons (t : string) (e : Event) (es : list Event) :
  e ≠ Dispose → domEvents t (e :: es) = (domEvents t [e] + domEvents t es)%nat.
Proof. intros He. destruct e; cbn; try lia. congruence. Qed.

Section Logs.
Context (sv : Services) (d : ContentRefData) (w0 : World) (pre : list IDisposable).
Hypothesis Hpre : Forall (λ x, quiet x = true) pre.

Lemma fire_logged (source : EventSource) (n c g : nat) (w : World)
  (a : InlineAnchorWidget) :
  live sv d w0 pre n a → logged sv d w0 n c g w →
  let k t := match source with
             | DomEvent t' => if decide (t' = t) then 1%nat else 0%nat
             | _ => 0%nat
             end in
  let st' := fire sv source (w, a) in
  live sv d w0 pre (n + k "click") (snd st') ∧
  logged sv d w0 (n + k "click") (c + k "contextmenu") (g + k "dragstart") (fst st').
Proof.
  intros (Hd & Hs & Hi) (Ht & Hu & Hm & Hg) k st'. subst st' k.
  unfold fire. cbn [snd]. rewrite Hs, dispatch_app.
  destruct (dispatch_quiet sv source pre Hpre w a) as (c' & -> & _).
  rewrite dispatch_domListeners.
  destruct source as [| | t].
  - rewrite !Nat.add_0_r. repeat split; assumption.
  - rewrite !Nat.add_0_r. repeat split; assumption.
  - repeat case_decide; simplify_eq; rewrite ?Nat.add_0_r.
    + (* click *)
      cbn [handle anchorId_value anchorId set_contextKeyService].
      rewrite Hi. destruct n as [| n]; cbn.
      * rewrite Hu, Nat.add_0_r, Ht, app_nil_r.
        repeat split; try assumption. cbn. lia.
      * rewrite Ht. split.
        -- repeat split; assumption.
        -- repeat split; try assumption.
           cbn. rewrite <- app_assoc. f_equal.
           exact (replicate_snoc (S n) _).
    + (* contextmenu *)
      cbn. repeat split; try assumption.
      rewrite Hm, <- app_assoc, <- (replicate_snoc c (menuOf d)).
      now destruct (menuOf d).
    + (* dragstart *)
      cbn. repeat split; try assumption.
      now rewrite Hg, <- app_assoc, replicate_snoc.
    + repeat split; assumption.
Qed.

(** A widget without registrations logs nothing any more. *)
Lemma run_dead (es : list Event) (st : World * InlineAnchorWidget) :
  _store (snd st) = [] →
  telemetry (fst (run sv st es)) = telemetry (fst st) ∧
  uuidsDrawn (fst (run sv st es)) = uuidsDrawn (fst st) ∧
  contextMenus (fst (run sv st es)) = contextMenus (fst st) ∧
  dragData (fst (run sv st es)) = dragData (fst st).
Proof.
  revert st. unfold run.
  induction es as [| e es IH]; intros [w a] Hs; cbn [foldl]; [done |].
  cbn [snd] in Hs.
  assert (Hstep : _store (snd (step sv (w, a) e)) = [] ∧
                  telemetry (fst (step sv (w, a) e)) = telemetry w ∧
                  uuidsDrawn (fst (step sv (w, a) e)) = uuidsDrawn w ∧
                  contextMenus (fst (step sv (w, a) e)) = contextMenus w ∧
                  dragData (fst (step sv (w, a) e)) = dragData w).
  { destruct e; cbn [step]; unfold fire; cbn [snd]; rewrite ?Hs; cbn;
      try (repeat split; assumption).
    destruct (pendingStat a); cbn; [destruct (disposed a) |]; cbn;
      repeat split; assumption. }
  destruct Hstep as (Hs' & Ht & Hu & Hm & Hg).
  destruct (IH (step sv (w, a) e) Hs') as (Ht' & Hu' & Hm' & Hg').
  cbn [fst]. rewrite Ht', Hu', Hm', Hg'. repeat split; assumption.
Qed.

Lemma run_logged (es : list Event) :
  ∀ n c g w a,
    live sv d w0 pre n a → logged sv d w0 n c g w →
    logged sv d w0 (n + domEvents "click" es) (c + domEvents "contextmenu" es)
      (g + domEvents "dragstart" es) (fst (run sv (w, a) es)).
Proof.
  unfold run.
  induction es as [| e es IH]; intros n c g w a Hl Hw; cbn [foldl].
  { cbn. now rewrite !Nat.add_0_r. }
  assert (e = Dispose ∨ e ≠ Dispose) as [-> | He]
    by (destruct e; (now left) || (right; discriminate)).
  { cbn [domEvents step]. rewrite !Nat.add_0_r.
    destruct (run_dead es (w, dispose a) eq_refl) as (Ht & Hu & Hm & Hg).
    unfold run in *. cbn [fst] in *.
    destruct Hw as (Ht0 & Hu0 & Hm0 & Hg0).
    unfold logged. rewrite Ht, Hu, Hm, Hg. repeat split; assumption. }
  rewrite !(domEvents_cons _ e es He), !Nat.add_assoc.
  destruct (step sv (w, a) e) as [w1 a1] eqn:E.
  apply IH.
  - destruct e; cbn [step] in E; try congruence.
    + apply (f_equal snd) in E. cbn [snd] in E. subst a1.
      eapply (fire_logged DefinitionProviderDidChange n c g); [exact Hl | exact Hw].
    + apply (f_equal snd) in E. cbn [snd] in E. subst a1.
      eapply (fire_logged ReferenceProviderDidChange n c g); [exact Hl | exact Hw].
    + simplify_eq. cbn. now rewrite Nat.add_0_r.
    + simplify_eq. cbn. now rewrite Nat.add_0_r.
    + cbn. rewrite Nat.add_0_r. destruct Hl as (Hd & Hs & Hi).
      destruct (pendingStat a); cbn in E; [rewrite Hd in E |]; simplify_eq;
        repeat split; assumption.
    + apply (f_equal snd) in E. cbn [snd] in E. subst a1.
      pose proof (fire_logged (DomEvent type) n c g w a Hl Hw) as [H1 _].
      cbn in H1. cbn. now rewrite Nat.add_0_r.
  - destruct e; cbn [step] in E; try congruence.
    + apply (f_equal fst) in E. cbn [fst] in E. subst w1.
      cbn. rewrite !Nat.add_0_r.
      pose proof (fire_logged DefinitionProviderDidChange n c g
                    (set_definitionProvider has w) a Hl Hw) as [_ H2].
      cbn in H2. now rewrite !Nat.add_0_r in H2.
    + apply (f_equal fst) in E. cbn [fst] in E. subst w1.
      cbn. rewrite !Nat.add_0_r.
      pose proof (fire_logged ReferenceProviderDidChange n c g
                    (set_referenceProvider has w) a Hl Hw) as [_ H2].
      cbn in H2. now rewrite !Nat.add_0_r in H2.
    + simplify_eq. cbn. now rewrite !Nat.add_0_r.
    + simplify_eq. cbn. now rewrite !Nat.add_0_r.
    + cbn. rewrite !Nat.add_0_r. destruct Hl as (Hd & Hs & Hi).
      destruct (pendingStat a); cbn in E; [rewrite Hd in E |]; simplify_eq;
        assumption.
    + apply (f_equal fst) in E. cbn [fst] in E. subst w1.
      pose proof (fire_logged (DomEvent type) n c g w a Hl Hw) as [_ H2].
      cbn in H2. cbn. now rewrite !Nat.add_0_r.
Qed.

End Logs.

(** The logs after any run of events on a newly built widget. *)
Lemma new_logged (sv : Services) (el : HTMLElement) (r : InlineReference)
  (w : World) (es : list Event) :
  logged sv (contentRefData r) w (domEvents "click" es)
    (domEvents "contextmenu" es) (domEvents "dragstart" es)
    (fst (run sv (w, InlineAnchorWidget_new sv el r w) es)).
Proof.
  destruct (store_new sv el r w) as (pre & Hs & Hpre).
  apply (run_logged sv (contentRefData r) w pre Hpre es 0 0 0).
  - repeat split. exact Hs.
  - unfold logged; cbn. rewrite !app_nil_r, Nat.add_0_r. done.
Qed.

(** X4. Every click that reaches the element before the widget is
    disposed of publishes one telemetry event, [openSymbol] for a symbol
    and [openResource] for a resource, and all of them carry the same
    anchor identifier. The identifier is drawn at the first click: a widget
    that is never clicked draws none, a clicked one draws exactly one.
    Nothing else is published, whatever other events occur. *)
Theorem X4_click_telemetry (sv : Services) (el : HTMLElement)
  (r : InlineReference) (w : World) (es : list Event) :
  let w' := fst (run sv (w, InlineAnchorWidget_new sv el r w) es) in
  telemetry w'
    = telemetry w ++
      replicate (domEvents "click" es)
        (match contentRefData r with
         | SymbolData _ => "chat.inlineAnchor.openSymbol"
         | ResourceData _ _ => "chat.inlineAnchor.openResource"
         end, generateUuid sv (uuidsDrawn w)) ∧
  uuidsDrawn w'
    = (uuidsDrawn w + match domEvents "click" es with 0 => 0 | _ => 1 end)%nat.
Proof.
  intros w'. destruct (new_logged sv el r w es) as (Ht & Hu & _ & _).
  split; [exact Ht | exact Hu].
Qed.

(** X5. Every context-menu event that reaches the element before disposal
    opens one menu: the symbol anchor menu with the symbol's location as
    argument, or the resource anchor menu with the bare URI as argument. No
    other event opens a menu. *)
Theorem X5_context_menus (sv : Services) (el : HTMLElement)
  (r : InlineReference) (w : World) (es : list Event) :
  contextMenus (fst (run sv (w, InlineAnchorWidget_new sv el r w) es))
    = contextMenus w ++
      replicate (domEvents "contextmenu" es)
        (match contentRefData r with
         | SymbolData s => (ChatInlineSymbolAnchorContext, ArgLocation (location s))
         | ResourceData u _ => (ChatInlineResourceAnchorContext, ArgURI u)
         end).
Proof.
  destruct (new_logged sv el r w es) as (_ & _ & Hm & _). exact Hm.
Qed.

(** X6. Every drag start that reaches the element before disposal fills
    the drag data with the one URI the anchor refers to, the URI of the
    symbol's location or of the resource; no other event does. *)
Theorem X6_drag_data (sv : Services) (el : HTMLElement)
  (r : InlineReference) (w : World) (es : list Event) :
  dragData (fst (run sv (w, InlineAnchorWidget_new sv el r w) es))
    = dragData w ++
      replicate (domEvents "dragstart" es)
        [match r with
         | RefURI u => u
         | RefLocation l => uri l
         | RefSymbol s => uri (location s)
         end].
Proof.
  destruct (new_logged sv el r w es) as (_ & _ & _ & Hg).
  rewrite Hg. now destruct r.
Qed.

(** ** The scope of a resource anchor *)

Lemma handle_identity (sv : Services) (h : Handler) (st : World * InlineAnchorWidget) :
  disposed (snd (handle sv h st)) = disposed (snd st) ∧
  data (snd (handle sv h st)) = data (snd st).
Proof.
  destruct h; cbn.
  - destruct st as [w a]; cbn; auto.
  - destruct st as [w a]; cbn. destruct (anchorId a); cbn; auto.
  - destruct st as [w a]; cbn; auto.
  - destruct st as [w a]; cbn; auto.
Qed.

(** No event changes what the anchor refers to. *)
Lemma run_data (sv : Services) (es : list Event) (st : World * InlineAnchorWidget) :
  data (snd (run sv st es)) = data (snd st).
Proof.
  apply (run_invariant sv (λ a, data a = data (snd st))); [| done].
  clear es. intros [w a] e Ha. cbn [snd] in Ha.
  assert (Hfire : ∀ source st', data (snd st') = data (snd st) →
                                data (snd (fire sv source st')) = data (snd st)).
  { intros source st' H'. unfold fire.
    apply (dispatch_preserves sv (λ a, data a = data (snd st))); [| exact H'].
    apply Forall_forall. intros d _ on h _ st'' H''.
    now rewrite (proj2 (handle_identity sv h st'')). }
  destruct e; cbn [step].
  - now apply Hfire.
  - now apply Hfire.
  - exact Ha.
  - exact Ha.
  - destruct (pendingStat a); [| exact Ha]. cbn. now destruct (disposed a).
  - now apply Hfire.
  - exact Ha.
Qed.

(** With no [updateContents] in the store, only the stat promise and
    disposal change the scope. *)
Lemma run_scope_without_flags (sv : Services) (es : list Event) :
  ∀ w a,
    disposed a = false →
    Forall (λ d, updatesFlags d = false) (_store a) →
    contextKeyService (snd (run sv (w, a) es))
      = if disposes es then ∅
        else match pendingStat a, firstStat es with
             | Some _, Some (Fulfilled stat) =>
                 setContext (ExplorerFolderContext sv) (CBool (isDirectory stat))
                   (contextKeyService a)
             | _, _ => contextKeyService a
             end.
Proof.
  unfold run. induction es as [| e es IH]; intros w a Hd Hs; cbn [foldl].
  { cbn. now destruct (pendingStat a). }
  assert (Hfire : ∀ source w',
    ∃ w'' a'', fire sv source (w', a) = (w'', a'') ∧
               contextKeyService a'' = contextKeyService a ∧
               pendingStat a'' = pendingStat a ∧
               disposed a'' = false ∧ _store a'' = _store a).
  { intros source w'.
    pose proof (dispatch_preserves sv
      (λ a', contextKeyService a' = contextKeyService a ∧
             pendingStat a' = pendingStat a ∧
             disposed a' = false ∧ _store a' = _store a) source (_store a)) as H.
    destruct (fire sv source (w', a)) as [w'' a''] eqn:E.
    exists w'', a''. split; [done |].
    unfold fire in E. cbn [snd] in E.
    specialize (H ltac:(eapply Forall_impl; [exact Hs |];
      intros d Hu on h -> st'' (Hc & Hp & Hdd & Hss);
      destruct (handle_frame sv h st'') as [Es Ep];
      destruct (handle_identity sv h st'') as [Ed _];
      rewrite handle_scope, Es, Ep, Ed;
      [done | intros m ->; destruct on; discriminate]) (w', a)).
    rewrite E in H. now apply H. }
  destruct e; cbn [step disposes firstStat].
  - destruct (Hfire DefinitionProviderDidChange (set_definitionProvider has w))
      as (w'' & a'' & -> & Hc & Hp & Hd' & Hs').
    rewrite IH by (rewrite ?Hs'; assumption). now rewrite Hc, Hp.
  - destruct (Hfire ReferenceProviderDidChange (set_referenceProvider has w))
      as (w'' & a'' & -> & Hc & Hp & Hd' & Hs').
    rewrite IH by (rewrite ?Hs'; assumption). now rewrite Hc, Hp.
  - now rewrite IH.
  - now rewrite IH.
  - destruct (pendingStat a) as [u |] eqn:Ep.
    + cbn. rewrite Hd. rewrite IH by assumption. cbn.
      destruct (disposes es); [done |].
      destruct r as [stat | reason]; reflexivity.
    + rewrite IH by assumption. rewrite Ep.
      destruct (disposes es); [done |]. now destruct r.
  - destruct (Hfire (DomEvent type) w) as (w'' & a'' & -> & Hc & Hp & Hd' & Hs').
    rewrite IH by (rewrite ?Hs'; assumption). now rewrite Hc, Hp.
  - pose proof (run_invariant sv
        (λ a', disposed a' = true ∧ _store a' = [] ∧ contextKeyService a' = ∅)) as H.
    unfold run in H. apply H; [| done].
    clear. intros [w a] e (Hd & Hs & Hc). cbn [snd] in *.
    destruct e; cbn [step]; unfold fire; cbn [snd]; rewrite ?Hs; cbn; try done.
    destruct (pendingStat a); cbn; rewrite ?Hd; done.
Qed.

Lemma resource_store_without_flags (sv : Services) (el : HTMLElement) (w : World)
  (r : InlineReference) (u : URI) (sub : option IRange) :
  contentRefData r = ResourceData u sub →
  Forall (λ d, updatesFlags d = false) (_store (InlineAnchorWidget_new sv el r w)) ∧
  pendingStat (InlineAnchorWidget_new sv el r w) = Some u.
Proof.
  intros H. unfold InlineAnchorWidget_new. rewrite H. cbn.
  split; [repeat constructor | reflexivity].
Qed.



(** X8. Once the stat promise of a resource anchor is fulfilled, the one
    menu entry of Add File to Chat, in the resource anchor menu, is shown
    exactly when the resource is not a directory, whatever the ambient
    context says. The menu hands the action the bare URI of the anchor;
    with a chat widget focused the action attaches that URI as a file at
    the widget's location, and with none focused it attaches nothing. *)
Theorem X8_add_file_to_chat (sv : Services) (el : HTMLElement) (w : World)
  (r : InlineReference) (u : URI) (sub : option IRange) (es : list Event)
  (stat : IFileStat) (ambient : gmap string ContextKeyValue) (acc : ChatAccessor) :
  contentRefData r = ResourceData u sub →
  disposes es = false → firstStat es = Some (Fulfilled stat) →
  let a' := snd (run sv (w, InlineAnchorWidget_new sv el r w) es) in
  (∃ e, menu (AddFileToChatAction sv) = [(fst (menuOf (data a')), Some e)] ∧
        contextMatchesRules ambient (contextKeyService a') e
          = negb (isDirectory stat)) ∧
  snd (menuOf (data a')) = ArgURI u ∧
  attachedContext (AddFileToChatAction_run acc u)
    = match lastFocusedWidget acc with
      | Some widget => attachedContext acc ++ [("file", u, widget_location widget)]
      | None => attachedContext acc
      end.
Proof.
  intros H Hd Hf a'. subst a'.
  destruct (resource_store_without_flags sv el w r u sub H) as [Hs Hp].
  rewrite run_data. cbn [snd data InlineAnchorWidget_new]. rewrite H. cbn [menuOf fst snd].
  split; [| split; [reflexivity |]].
  - eexists. split; [reflexivity |].
    rewrite (run_scope_without_flags sv es w (InlineAnchorWidget_new sv el r w)
               eq_refl Hs), Hp, Hd, Hf.
    unfold contextMatchesRules, getContextKeyValue, setContext.
    now rewrite lookup_insert_eq.
  - unfold AddFileToChatAction_run. now destruct (lastFocusedWidget acc).
Qed.

Lemma X8_add_file_to_chat_witness :
  let a' := snd (run Demo.services
                   (Demo.idle,
                    InlineAnchorWidget_new Demo.services Demo.blank
                      (RefURI Demo.file) Demo.idle)
                   [StatSettled (Fulfilled (mkStat false)); Dom "contextmenu"]) in
  let acc := {| lastFocusedWidget := Some (mkChatWidget "panel");
                attachedContext := [] |} in
  (∃ e, menu (AddFileToChatAction Demo.services) = [(fst (menuOf (data a')), Some e)] ∧
        contextMatchesRules ∅ (contextKeyService a') e = true) ∧
  snd (menuOf (data a')) = ArgURI Demo.file ∧
  attachedContext (AddFileToChatAction_run acc Demo.file)
    = [("file", Demo.file, "panel")].
Proof.
  exact (X8_add_file_to_chat Demo.services Demo.blank Demo.idle (RefURI Demo.file)
           Demo.file None [StatSettled (Fulfilled (mkStat false)); Dom "contextmenu"]
           (mkStat false) ∅
           {| lastFocusedWidget := Some (mkChatWidget "panel"); attachedContext := [] |}
           eq_refl eq_refl eq_refl).
Defined.

(** X9. As long as a resource anchor is not disposed of, its scope holds
    the string of its URI under the chat resource key, so the copy and
    open-to-side keybindings are enabled in that scope exactly when that
    string is not empty; the stat answer and the other events do not
    disturb the key. The folder key is taken to be another key. *)
Theorem X9_resource_keybindings_enabled (sv : Services) (el : HTMLElement)
  (w : World) (r : InlineReference) (u : URI) (sub : option IRange)
  (es : list Event) (ambient : gmap string ContextKeyValue) :
  contentRefData r = ResourceData u sub →
  key (ExplorerFolderContext sv) ≠ key chatResourceContextKey →
  disposes es = false →
  let a' := snd (run sv (w, InlineAnchorWidget_new sv el r w) es) in
  contextKeyService a' !! key chatResourceContextKey
    = Some (CString (URI_toString sv u)) ∧
  enabled ambient (contextKeyService a') CopyResourceAction
    = negb (String.eqb (URI_toString sv u) "") ∧
  enabled ambient (contextKeyService a') OpenToSideAction
    = negb (String.eqb (URI_toString sv u) "").
Proof.
  intros H Hne Hd a'.
  assert (Hk : contextKeyService a' !! key chatResourceContextKey
               = Some (CString (URI_toString sv u))).
  { subst a'.
    destruct (resource_store_without_flags sv el w r u sub H) as [Hs Hp].
    rewrite (run_scope_without_flags sv es w (InlineAnchorWidget_new sv el r w)
               eq_refl Hs), Hp, Hd.
    assert (H0 : contextKeyService (InlineAnchorWidget_new sv el r w)
                   !! key chatResourceContextKey
                 = Some (CString (URI_toString sv u))).
    { unfold InlineAnchorWidget_new. rewrite H. cbn.
      rewrite bindTo_lookup_ne by assumption. apply lookup_insert_eq. }
    destruct (firstStat es) as [[stat | reason] |]; try exact H0.
    unfold setContext. now rewrite lookup_insert_ne. }
  split; [exact Hk |].
  unfold enabled, contextMatchesRules, getContextKeyValue; cbn [precondition CopyResourceAction OpenToSideAction].
  rewrite Hk. split; reflexivity.
Qed.

Lemma X9_resource_keybindings_enabled_witness :
  let a' := snd (run Demo.services
                   (Demo.idle,
                    InlineAnchorWidget_new Demo.services Demo.blank
                      (RefURI Demo.file) Demo.idle)
                   [StatSettled (Fulfilled (mkStat true)); Dom "click"]) in
  contextKeyService a' !! "chatAnchorResource" = Some (CString "file:///a/b.txt") ∧
  enabled ∅ (contextKeyService a') CopyResourceAction = true ∧
  enabled ∅ (contextKeyService a') OpenToSideAction = true.
Proof.
  apply (X9_resource_keybindings_enabled Demo.services Demo.blank Demo.idle
           (RefURI Demo.file) Demo.file None
           [StatSettled (Fulfilled (mkStat true)); Dom "click"] ∅ eq_refl);
    [discriminate | reflexivity].
Defined.

(** X10. The gate of the two keybinding actions agrees with what they do.
    If, after any run of events, either action is enabled in the scope of
    an anchor and that anchor is the last focused one, then the anchor is a
    resource anchor, copying writes exactly its URI to the clipboard and
    opening to the side issues the open-to-side command on that URI. The
    provider keys are taken to be other keys than the chat resource key,
    which the ambient context does not supply. *)
Theorem X10_enabled_keybindings_act (sv : Services) (el : HTMLElement) (w : World)
  (r : InlineReference) (es : list Event) (ambient : gmap string ContextKeyValue)
  (acc : Accessor) :
  key (hasDefinitionProvider sv) ≠ key chatResourceContextKey →
  key (hasReferenceProvider sv) ≠ key chatResourceContextKey →
  ambient !! key chatResourceContextKey = None →
  let a' := snd (run sv (w, InlineAnchorWidget_new sv el r w) es) in
  lastFocusedAnchor acc = Some a' →
  enabled ambient (contextKeyService a') CopyResourceAction = true ∨
  enabled ambient (contextKeyService a') OpenToSideAction = true →
  ∃ u sub,
    contentRefData r = ResourceData u sub ∧
    writtenResources (CopyResourceAction_run acc) = writtenResources acc ++ [[u]] ∧
    executedCommands (OpenToSideAction_run sv acc)
      = executedCommands acc ++ [(OPEN_TO_SIDE_COMMAND_ID sv, u)].
Proof.
  intros Hd Hr Ha a' Hl He.
  assert (Hdata : data a' = contentRefData r) by (subst a'; now rewrite run_data).
  destruct (contentRefData r) as [s | u sub] eqn:E.
  - exfalso. destruct r as [? | ? | s']; try discriminate.
    pose proof (run_invariant sv (unset (key chatResourceContextKey))
                  (λ st e, step_unset sv _ st e Hd Hr) es
                  (w, InlineAnchorWidget_new sv el (RefSymbol s') w)
                  (symbol_starts_unset sv el w s' Hd Hr)) as [H1 _].
    destruct (precondition_off ambient (contextKeyService a') H1 Ha) as [Hc Ho].
    destruct He as [He | He]; congruence.
  - exists u, sub. split; [reflexivity |].
    unfold CopyResourceAction_run, OpenToSideAction_run.
    rewrite Hl, Hdata. split; reflexivity.
Qed.

Lemma X10_enabled_keybindings_act_witness :
  let a' := snd (run Demo.services
                   (Demo.idle,
                    InlineAnchorWidget_new Demo.services Demo.blank
                      (RefURI Demo.file) Demo.idle)
                   [Dom "click"]) in
  let acc := {| lastFocusedAnchor := Some a'; writtenResources := [];
                executedCommands := [] |} in
  ∃ u sub,
    contentRefData (RefURI Demo.file) = ResourceData u sub ∧
    writtenResources (CopyResourceAction_run acc) = [[u]] ∧
    executedCommands (OpenToSideAction_run Demo.services acc)
      = [("explorer.openToSide", u)].
Proof.
  intros a' acc.
  apply (X10_enabled_keybindings_act Demo.services Demo.blank Demo.idle
           (RefURI Demo.file) [Dom "click"] ∅ acc);
    [discriminate | discriminate | apply lookup_empty | reflexivity |].
  left. vm_compute. reflexivity.
Defined.

(** ** The provider flags of a symbol anchor *)

Lemma handle_registries (sv : Services) (h : Handler) (st : World * InlineAnchorWidget) :
  isDisposed (fst (handle sv h st)) = isDisposed (fst st) ∧
  definitionProvider_has (fst (handle sv h st)) = definitionProvider_has (fst st).
Proof.
  destruct h; cbn.
  - destruct st as [w a]; cbn; auto.
  - destruct st as [w a]; cbn. destruct (anchorId a); cbn; auto.
  - destruct st as [w a]; cbn; auto.
  - destruct st as [w a]; cbn; auto.
Qed.

Lemma store_symbol (sv : Services) (el : HTMLElement) (w : World)
  (s : IWorkspaceSymbol) (m : ITextModel) :
  getModel w (uri (location s)) = Some m →
  _store (InlineAnchorWidget_new sv el (RefSymbol s) w) = symbolStore sv s m.
Proof.
  intros Hm. cbn. unfold bindProviderFlags. now rewrite Hm.
Qed.

Section SymbolLifetime.
Context (sv : Services) (s : IWorkspaceSymbol) (m : ITextModel).

(** A provider registry announces a change: [updateContents] runs once. *)
Lemma fire_symbol_provider (source : EventSource) (w : World) (a : InlineAnchorWidget) :
  source = DefinitionProviderDidChange ∨ source = ReferenceProviderDidChange →
  _store a = symbolStore sv s m →
  fire sv source (w, a)
    = (w, set_contextKeyService (run_updateContents sv w m (contextKeyService a)) a).
Proof.
  intros Hsrc Hs. unfold fire. cbn [snd]. rewrite Hs. unfold symbolStore.
  rewrite dispatch_app, dispatch_domListeners.
  destruct Hsrc as [-> | ->]; unfold dispatch; cbn [foldl];
    repeat case_decide; try congruence; reflexivity.
Qed.

(** A DOM event leaves the scope, the store and the registries alone. *)
Lemma fire_symbol_dom (t : string) (w : World) (a : InlineAnchorWidget) :
  _store a = symbolStore sv s m →
  let st' := fire sv (DomEvent t) (w, a) in
  contextKeyService (snd st') = contextKeyService a ∧
  _store (snd st') = _store a ∧
  pendingStat (snd st') = pendingStat a ∧
  disposed (snd st') = disposed a ∧
  isDisposed (fst st') = isDisposed w ∧
  definitionProvider_has (fst st') = definitionProvider_has w.
Proof.
  intros Hs st'. subst st'.
  assert (E : dispatch sv (DomEvent t)
                [ScopedContextKeyService;
                 Listener DefinitionProviderDidChange (updateContents m);
                 Listener ReferenceProviderDidChange (updateContents m)] (w, a)
              = (w, a))
    by (unfold dispatch; cbn [foldl]; repeat case_decide; congruence).
  assert (Efire : fire sv (DomEvent t) (w, a)
                  = dispatch sv (DomEvent t) (domListeners sv (SymbolData s)) (w, a)).
  { unfold fire. cbn [snd]. rewrite Hs. unfold symbolStore.
    now rewrite dispatch_app, E. }
  rewrite Efire, dispatch_domListeners.
  assert (H : ∀ h, (∀ m', h ≠ updateContents m') →
    contextKeyService (snd (handle sv h (w, a))) = contextKeyService a ∧
    _store (snd (handle sv h (w, a))) = _store a ∧
    pendingStat (snd (handle sv h (w, a))) = pendingStat a ∧
    disposed (snd (handle sv h (w, a))) = disposed a ∧
    isDisposed (fst (handle sv h (w, a))) = isDisposed w ∧
    definitionProvider_has (fst (handle sv h (w, a))) = definitionProvider_has w).
  { intros h Hh.
    destruct (handle_frame sv h (w, a)) as [? ?].
    destruct (handle_identity sv h (w, a)) as [? _].
    destruct (handle_registries sv h (w, a)) as [? ?].
    rewrite handle_scope by exact Hh. repeat split; assumption. }
  repeat case_decide; try (apply H; intros m'; discriminate).
  repeat split.
Qed.

(** One event on a symbol anchor that has no stat request and has either
    kept its registrations or been disposed of. *)
Lemma step_symbol (w : World) (a : InlineAnchorWidget) (e : Event) :
  pendingStat a = None → keeps (symbolStore sv s m) a →
  let st' := step sv (w, a) e in
  pendingStat (snd st') = None ∧
  keeps (symbolStore sv s m) (snd st') ∧
  (disposed (snd st') = false → disposed a = false) ∧
  (isDisposed (fst st') m = false → isDisposed w m = false) ∧
  (isDisposed w m = true → isDisposed (fst st') m = true) ∧
  definitionProvider_has (fst st')
    = match e with
      | DefinitionProviderChanged has => has
      | _ => definitionProvider_has w
      end ∧
  contextKeyService (snd st')
    = match e with
      | DefinitionProviderChanged _ | ReferenceProviderChanged _ =>
          if disposed a then contextKeyService a
          else run_updateContents sv (fst st') m (contextKeyService a)
      | Dispose => ∅
      | _ => contextKeyService a
      end.
Proof.
  intros Hp Hk st'. subst st'.
  destruct Hk as [[Hd Hs] | [Hd Hs]].
  - (* registrations kept *)
    destruct e; cbn [step].
    + rewrite (fire_symbol_provider DefinitionProviderDidChange) by auto.
      cbn. rewrite Hd. repeat split; try done. left. now split.
    + rewrite (fire_symbol_provider ReferenceProviderDidChange) by auto.
      cbn. rewrite Hd. repeat split; try done. left. now split.
    + cbn. repeat split; try done. left. now split.
    + cbn. repeat split; try done; try (left; now split).
      * now case_decide.
      * intros ->. now case_decide.
    + rewrite Hp. cbn. repeat split; try done. left. now split.
    + destruct (fire_symbol_dom type w a Hs) as (Hc & Hs' & Hp' & Hd' & Hi & Hf).
      rewrite Hc, Hp', Hi, Hf. repeat split; try done.
      left. split; congruence.
    + cbn. repeat split; try done. right. now split.
  - (* disposed of *)
    destruct e; cbn [step]; unfold fire; cbn [snd]; rewrite ?Hs, ?Hp, ?Hd; cbn;
      repeat split; try done; try (right; now split); try congruence.
    + now case_decide.
    + intros ->. now case_decide.
Qed.

Lemma updateContents_current (w : World) (c : gmap string ContextKeyValue) :
  isDisposed w m = false →
  run_updateContents sv w m c !! key (hasDefinitionProvider sv)
    = Some (CBool (definitionProvider_has w m)) ∧
  run_updateContents sv w m c !! key (hasReferenceProvider sv)
    = Some (CBool (definitionProvider_has w m)).
Proof.
  intros Hd. unfold run_updateContents, setContext. rewrite Hd. split.
  - rewrite lookup_insert. case_decide; [done | apply lookup_insert_eq].
  - apply lookup_insert_eq.
Qed.

Lemma run_current (es : list Event) :
  ∀ w a, pendingStat a = None → keeps (symbolStore sv s m) a →
         current sv m (w, a) → current sv m (run sv (w, a) es).
Proof.
  unfold run. induction es as [| e es IH]; intros w a Hp Hk Hc; cbn [foldl]; [done |].
  destruct (step_symbol w a e Hp Hk) as (Hp' & Hk' & Hd' & Hi' & _ & Hf' & Hc').
  destruct (step sv (w, a) e) as [w1 a1] eqn:E. cbn [fst snd] in *.
  apply IH; [assumption | assumption |].
  intros Hd1 Hi1. cbn [fst snd] in *.
  specialize (Hd' Hd1). specialize (Hi' Hi1).
  destruct e; rewrite Hc'.
  - rewrite Hd'. now apply updateContents_current.
  - rewrite Hd'. now apply updateContents_current.
  - rewrite Hf'. now apply Hc.
  - rewrite Hf'. now apply Hc.
  - rewrite Hf'. now apply Hc.
  - rewrite Hf'. now apply Hc.
  - cbn [step] in E. simplify_eq; cbn in *; discriminate.
Qed.

(** Once the model is disposed of, the scope changes at disposal only. *)
Lemma run_frozen (es : list Event) :
  ∀ w a, pendingStat a = None → keeps (symbolStore sv s m) a →
         isDisposed w m = true →
         disposed (snd (run sv (w, a) es)) = false →
         contextKeyService (snd (run sv (w, a) es)) = contextKeyService a.
Proof.
  unfold run. induction es as [| e es IH]; intros w a Hp Hk Hi Hd; cbn [foldl] in *;
    [done |].
  destruct (step_symbol w a e Hp Hk) as (Hp' & Hk' & Hd' & _ & Hi' & _ & Hc').
  destruct (step sv (w, a) e) as [w1 a1] eqn:E. cbn [fst snd] in *.
  specialize (Hi' Hi).
  rewrite (IH w1 a1 Hp' Hk' Hi' Hd), Hc'.
  assert (Hrun : disposed a1 = false).
  { clear -Hd Hk' Hp'. revert w1 a1 Hk' Hp' Hd.
    induction es as [| e' es IH']; intros w1 a1 Hk' Hp' Hd; cbn [foldl] in Hd; [done |].
    destruct (step_symbol w1 a1 e' Hp' Hk') as (Hp2 & Hk2 & Hd2 & _).
    destruct (step sv (w1, a1) e') as [w2 a2]. cbn [fst snd] in *.
    apply Hd2. eapply IH'; eassumption. }
  destruct e; try reflexivity.
  - unfold run_updateContents. rewrite Hi'. now destruct (disposed a).
  - unfold run_updateContents. rewrite Hi'. now destruct (disposed a).
  - cbn [step] in E. simplify_eq; cbn in *; discriminate.
Qed.

Lemma run_symbol_keeps (es : list Event) :
  ∀ w a, pendingStat a = None → keeps (symbolStore sv s m) a →
         pendingStat (snd (run sv (w, a) es)) = None ∧
         keeps (symbolStore sv s m) (snd (run sv (w, a) es)).
Proof.
  unfold run. induction es as [| e es IH]; intros w a Hp Hk; cbn [foldl]; [done |].
  destruct (step_symbol w a e Hp Hk) as (Hp' & Hk' & _).
  destruct (step sv (w, a) e) as [w1 a1]. now apply IH.
Qed.

End SymbolLifetime.

(** X11. For a symbol anchor built while the model of its location was
    loaded and alive, the has-definition-provider key holds the present
    answer of the definition registry for that model after every run of
    events, as long as neither the widget nor the model has been disposed
    of. *)
Theorem X11_definition_flag_tracks_registry (sv : Services) (el : HTMLElement)
  (w : World) (s : IWorkspaceSymbol) (m : ITextModel) (es : list Event) :
  getModel w (uri (location s)) = Some m → isDisposed w m = false →
  let st' := run sv (w, InlineAnchorWidget_new sv el (RefSymbol s) w) es in
  disposed (snd st') = false → isDisposed (fst st') m = false →
  contextKeyService (snd st') !! key (hasDefinitionProvider sv)
    = Some (CBool (definitionProvider_has (fst st') m)).
Proof.
  intros Hm Hi st' Hd' Hi'. subst st'.
  refine (proj1 (run_current sv s m es w
                   (InlineAnchorWidget_new sv el (RefSymbol s) w) eq_refl _ _ Hd' Hi')).
  - left. split; [reflexivity | now apply store_symbol].
  - intros _ _. cbn. unfold bindProviderFlags. rewrite Hm. cbn.
    now apply updateContents_current.
Qed.

Lemma X11_definition_flag_tracks_registry_witness :
  let st' := run Demo.services
               (Demo.definitions_only,
                InlineAnchorWidget_new Demo.services Demo.blank
                  (RefSymbol Demo.symbol) Demo.definitions_only)
               [Dom "click"; DefinitionProviderChanged (λ _, false);
                ReferenceProviderChanged (λ _, true)] in
  contextKeyService (snd st') !! "editorHasDefinitionProvider" = Some (CBool false).
Proof.
  exact (X11_definition_flag_tracks_registry Demo.services Demo.blank
           Demo.definitions_only Demo.symbol Demo.model
           [Dom "click"; DefinitionProviderChanged (λ _, false);
            ReferenceProviderChanged (λ _, true)]
           eq_refl eq_refl eq_refl eq_refl).
Defined.

(** X12. When the model a symbol anchor was built on is disposed of, the
    scope of the anchor is frozen: whatever the registries announce
    afterwards, and whatever else happens, every key keeps the value it had
    at that moment for as long as the widget lives. *)
Theorem X12_flags_frozen_after_model_disposal (sv : Services) (el : HTMLElement)
  (w : World) (s : IWorkspaceSymbol) (m : ITextModel) (es1 es2 : list Event) :
  getModel w (uri (location s)) = Some m →
  let st1 := run sv (w, InlineAnchorWidget_new sv el (RefSymbol s) w) es1 in
  let st2 := run sv (step sv st1 (ModelRemoved m)) es2 in
  disposed (snd st2) = false →
  contextKeyService (snd st2) = contextKeyService (snd st1).
Proof.
  intros Hm st1 st2 Hd. subst st2.
  assert (Hk0 : keeps (symbolStore sv s m) (InlineAnchorWidget_new sv el (RefSymbol s) w))
    by (left; split; [reflexivity | now apply store_symbol]).
  destruct (run_symbol_keeps sv s m es1 w
              (InlineAnchorWidget_new sv el (RefSymbol s) w) eq_refl Hk0) as [Hp1 Hk1].
  fold st1 in Hp1, Hk1. destruct st1 as [w1 a1]. cbn [snd] in *.
  cbn [step] in *.
  apply (run_frozen sv s m es2 _ a1 Hp1 Hk1); [| exact Hd].
  cbn. now case_decide.
Qed.

Lemma X12_flags_frozen_after_model_disposal_witness :
  let a := InlineAnchorWidget_new Demo.services Demo.blank
             (RefSymbol Demo.symbol) Demo.definitions_only in
  let st1 := run Demo.services (Demo.definitions_only, a) [Dom "click"] in
  let st2 := run Demo.services (step Demo.services st1 (ModelRemoved Demo.model))
               [DefinitionProviderChanged (λ _, false);
                ReferenceProviderChanged (λ _, false)] in
  definitionProvider_has (fst st2) Demo.model = false ∧
  contextKeyService (snd st2) !! "editorHasDefinitionProvider" = Some (CBool true).
Proof.
  intros a st1 st2. split; [reflexivity |]. subst st2 st1 a.
  rewrite (X12_flags_frozen_after_model_disposal Demo.services Demo.blank
             Demo.definitions_only Demo.symbol Demo.model [Dom "click"]
             [DefinitionProviderChanged (λ _, false);
              ReferenceProviderChanged (λ _, false)] eq_refl eq_refl).
  reflexivity.
Defined.

(** ** The symbol actions *)

(** X13. The menu of a symbol anchor hands its actions the location of the
    symbol. With a range on that location, Go to Definition and Go to
    References first open the editor on the location's URI at the start
    line and column of the range, the end of the range playing no part;
    the definition action, or the go-to-references command, follows only
    if the editor opened, and a failure to open is the outcome of the
    action. *)
Theorem X13_symbol_navigation (s : IWorkspaceSymbol) (rg : IRange)
  (opened follow : Settled unit) (calls : list NavigationCall) :
  range (location s) = Some rg →
  ∃ l, snd (menuOf (SymbolData s)) = ArgLocation l ∧
  let first := openCodeEditor (uri l) (startLineNumber rg) (startColumn rg) in
  match opened with
  | Fulfilled _ =>
      GoToDefinitionAction_run opened follow l calls
        = (calls ++ [first; runDefinitionAction false false true], follow) ∧
      GoToReferencesAction_run opened follow l calls
        = (calls ++ [first; executeCommand "editor.action.goToReferences"], follow)
  | Rejected e =>
      GoToDefinitionAction_run opened follow l calls = (calls ++ [first], Rejected e) ∧
      GoToReferencesAction_run opened follow l calls = (calls ++ [first], Rejected e)
  end.
Proof.
  intros Hr. exists (location s). split; [reflexivity |].
  unfold GoToDefinitionAction_run, GoToReferencesAction_run. rewrite Hr.
  destruct opened; cbn; rewrite <- ?app_assoc; split; reflexivity.
Qed.

Lemma X13_symbol_navigation_witness :
  GoToDefinitionAction_run (Fulfilled tt) (Fulfilled tt) (location Demo.symbol) []
    = ([openCodeEditor Demo.file 3 1; runDefinitionAction false false true],
       Fulfilled tt) ∧
  GoToReferencesAction_run (Rejected "closed") (Fulfilled tt) (location Demo.symbol) []
    = ([openCodeEditor Demo.file 3 1], Rejected "closed").
Proof.
  destruct (X13_symbol_navigation Demo.symbol Demo.lines_3_5 (Fulfilled tt)
              (Fulfilled tt) [] eq_refl) as (l & Hl & H1 & _).
  destruct (X13_symbol_navigation Demo.symbol Demo.lines_3_5 (Rejected "closed")
              (Fulfilled tt) [] eq_refl) as (l' & Hl' & _ & H2).
  injection Hl as <-. injection Hl' as <-.
  split; [exact H1 | exact H2].
Defined.
